(** * Account registration and login of the ATS backend (app.py)

    A shallow embedding of the two authentication handlers of [app.py],
    [register] and [login], of the [User] model they build, and of the
    [users] collection they talk to, followed by the properties the
    specification states about them.

    Reading notes on the source.
    - The statement at line 127 of [app.py] (a [logger.info] call) is indented
      one level deeper than its neighbours.  The handlers are read here with
      that statement at the level of the surrounding block.
    - Calls to [logger] neither raise nor touch the collection; they are left
      out of the embedding.
    - The [users] collection belongs to MongoDB.  It is embedded as the list
      of the documents it holds, in insertion order, with the two unique
      indexes created at start-up (lines 55-56) checked by [insert_one].
      What the driver and the server do with scalars and with lists of
      scalars is written out: a filter value matches a stored list through
      its elements, a unique index takes the elements of a list as its keys,
      an integer of more than eight bytes cannot be encoded.  What they do
      with any other value (a dictionary, which may be a query operator; a
      list inside a list) depends on key order and on versions; it is left
      to the world ([backend]), so that every statement holds whatever they
      do.  The collection is assumed reachable, and a string is taken to
      be text the driver encodes: driver time-outs and the limits on the
      size of a document are not modelled. *)

From Stdlib Require Import Ascii String.
From stdpp Require Import gmap strings list.

#[local] Set Warnings "-register-all".
#[local] Open Scope Z_scope.

(** ** Python values *)

(** The values a decoded JSON body is made of.  JSON numbers are kept to the
    integers. *)
Inductive value : Type :=
| VNone
| VBool (b : bool)
| VInt (z : Z)
| VStr (s : string)
| VList (l : list value)
| VDict (d : gmap string value).

(** [bool(v)]: the truth value Python gives to [v] in [not v], [all(...)]. *)
Definition truthy (v : value) : bool :=
  match v with
  | VNone => false
  | VBool b => b
  | VInt z => negb (z =? 0)
  | VStr s => negb (String.eqb s "")
  | VList l => match l with [] => false | _ :: _ => true end
  | VDict d => negb (bool_decide (d = ∅))
  end.

(** [all(l)] *)
Definition py_all (l : list value) : bool := forallb truthy l.

(** [a == b].  [True] and [False] compare as the integers 1 and 0. *)
Fixpoint py_eq (a b : value) {struct a} : bool :=
  match a, b with
  | VNone, VNone => true
  | VBool x, VBool y => Bool.eqb x y
  | VBool x, VInt n | VInt n, VBool x => n =? Z.b2z x
  | VInt m, VInt n => m =? n
  | VStr s, VStr t => String.eqb s t
  | VList l, VList l' =>
      (fix go (l l' : list value) : bool :=
         match l, l' with
         | [], [] => true
         | x :: l, y :: l' => py_eq x y && go l l'
         | _, _ => false
         end) l l'
  | VDict d, VDict d' =>
      bool_decide (dom d = dom d') &&
      map_fold (fun k v acc =>
                  acc && match d' !! k with
                         | Some w => py_eq v w
                         | None => false
                         end) true d
  | _, _ => false
  end.

(** [type(v).__name__] *)
Definition type_name (v : value) : string :=
  match v with
  | VNone => "NoneType"
  | VBool _ => "bool"
  | VInt _ => "int"
  | VStr _ => "str"
  | VList _ => "list"
  | VDict _ => "dict"
  end.

(** ** Exceptions *)

Inductive exn : Type :=
| HTTPException (text : string)      (* raised by Flask while decoding a body *)
| AttributeError (text : string)
| DuplicateKeyError (text : string)  (* raised by the driver on a unique index *)
| OverflowError (text : string)      (* raised by the driver while encoding *)
| PyMongoError (text : string).      (* any other refusal of driver or server *)

(** [str(err)] *)
Definition str_exn (err : exn) : string :=
  match err with
  | HTTPException t | AttributeError t | DuplicateKeyError t
  | OverflowError t | PyMongoError t => t
  end.

(** ** The [users] collection *)

Definition ObjectId : Type := N.
Definition datetime : Type := Z.

Definition hex_digit (n : N) : ascii :=
  match n with
  | 0 => "0" | 1 => "1" | 2 => "2" | 3 => "3" | 4 => "4" | 5 => "5"
  | 6 => "6" | 7 => "7" | 8 => "8" | 9 => "9" | 10 => "a" | 11 => "b"
  | 12 => "c" | 13 => "d" | 14 => "e" | _ => "f"
  end%N%char.

Fixpoint hex_digits (len : nat) (n : N) (acc : string) : string :=
  match len with
  | O => acc
  | S len' => hex_digits len' (n / 16)%N (String (hex_digit (n mod 16)%N) acc)
  end.

(** [str(oid)]: the 24 hexadecimal digits of a 12-byte identifier. *)
Definition str_oid (oid : ObjectId) : string := hex_digits 24 oid "".

(** [class User] (lines 64-81). *)
Module User.

Record t : Type := mk {
  username : value;
  email : value;
  password : value;  (* kept as received *)
  fullName : value;
  userType : value;
  createdAt : datetime;
}.

(** [User.to_dict]: the six attributes under their own names. *)
Definition to_dict (self : t) : t :=
  {| username := username self;
     email := email self;
     password := password self;
     fullName := fullName self;
     userType := userType self;
     createdAt := createdAt self |}.

End User.

(** A stored document: what [to_dict] gave, and the [_id] that [insert_one]
    added to it.  Nothing but [register] writes to the collection, so every
    document in it has this shape. *)
Record document : Type := mkDoc {
  _id : ObjectId;
  fields : User.t;
}.

(** [doc[key]] for the five keys that hold request values. *)
Definition doc_get (doc : document) (key : string) : option value :=
  if String.eqb key "username" then Some (User.username (fields doc))
  else if String.eqb key "email" then Some (User.email (fields doc))
  else if String.eqb key "password" then Some (User.password (fields doc))
  else if String.eqb key "fullName" then Some (User.fullName (fields doc))
  else if String.eqb key "userType" then Some (User.userType (fields doc))
  else None.

(** Equality of two values as the collection sees it.  Values of different
    types are different (a boolean is not a number).  It is used below with
    a scalar, or a list of scalars, on one side at least; there the
    comparison of the server is this one. *)
Fixpoint bson_eq (a b : value) {struct a} : bool :=
  match a, b with
  | VNone, VNone => true
  | VBool x, VBool y => Bool.eqb x y
  | VInt m, VInt n => m =? n
  | VStr s, VStr t => String.eqb s t
  | VList l, VList l' =>
      (fix go (l l' : list value) : bool :=
         match l, l' with
         | [], [] => true
         | x :: l, y :: l' => bson_eq x y && go l l'
         | _, _ => false
         end) l l'
  | VDict d, VDict d' =>
      bool_decide (dom d = dom d') &&
      map_fold (fun k v acc =>
                  acc && match d' !! k with
                         | Some w => bson_eq v w
                         | None => false
                         end) true d
  | _, _ => false
  end.

(** The scalars a unique index takes as keys, and the values whose keys
    they are: such a scalar, or a list of them that is not empty. *)
Definition is_key (v : value) : bool :=
  match v with
  | VBool _ | VInt _ | VStr _ => true
  | _ => false
  end.

Definition keyable (v : value) : bool :=
  match v with
  | VList [] => false
  | VList l => forallb is_key l
  | _ => is_key v
  end.

(** The scalars, and the values made of them without nesting. *)
Definition is_scalar (v : value) : bool :=
  match v with
  | VNone | VBool _ | VInt _ | VStr _ => true
  | _ => false
  end.

Definition simple (v : value) : bool :=
  match v with
  | VList l => forallb is_scalar l
  | _ => is_scalar v
  end.

(** An integer the driver can encode: one of eight bytes at most. *)
Definition int64 (z : Z) : bool := (- 2 ^ 63 <=? z) && (z <? 2 ^ 63).

(** Every integer of a simple value can be encoded. *)
Definition fits (v : value) : bool :=
  match v with
  | VInt z => int64 z
  | VList l => forallb (fun x => match x with VInt z => int64 z | _ => true end) l
  | _ => true
  end.

(** The text of the driver's error for an integer of more than eight
    bytes. *)
Definition overflow_text : string := "MongoDB can only handle up to 8-byte ints".

(** What is not written out here: how the driver and the server treat a
    value that is neither a scalar nor a list of scalars.  Each world has
    its own answers. *)
Record server : Type := mkServer {
  (* the error in which a filter with such a value ends, if it does *)
  refuses_filter : list (string * value) -> option exn;
  (* whether the condition [{key: v}], for such a [v], holds of a stored value *)
  selects : value -> value -> bool;
  (* the error in which the insertion of a document with such a value ends,
     if it does *)
  refuses_document : User.t -> option exn;
  (* whether a stored value and such a new value share a key of a unique index *)
  shares_key : value -> value -> bool;
}.

(** The condition [{key: v}] on a stored value, for a [v] with keys: the
    stored value is [v], or is a list one of whose elements is [v]. *)
Definition holds (stored v : value) : bool :=
  bson_eq stored v ||
  match stored with
  | VList l => existsb (fun x => bson_eq x v) l
  | _ => false
  end.

(** The filters the handlers build: [{key: v}] and [{'$or': [...]}]. *)
Inductive filter : Type :=
| FEq (key : string) (v : value)
| FOr (alternatives : list filter).

Fixpoint matches (srv : server) (q : filter) (doc : document) : bool :=
  match q with
  | FEq key v =>
      match doc_get doc key with
      | Some stored => if keyable v then holds stored v else selects srv v stored
      | None => false
      end
  | FOr alternatives =>
      (fix any (qs : list filter) : bool :=
         match qs with
         | [] => false
         | q' :: qs' => matches srv q' doc || any qs'
         end) alternatives
  end.

(** The conditions of a filter, in the order they are written. *)
Fixpoint conditions (q : filter) : list (string * value) :=
  match q with
  | FEq key v => [(key, v)]
  | FOr alternatives =>
      (fix all (qs : list filter) : list (string * value) :=
         match qs with
         | [] => []
         | q' :: qs' => conditions q' ++ all qs'
         end) alternatives
  end.

(** The keys a unique index takes from a value: the elements of a list, the
    value itself otherwise. *)
Definition index_keys (v : value) : list value :=
  match v with
  | VList l => l
  | _ => [v]
  end.

(** A stored value and a new one share a key. *)
Definition field_clash (srv : server) (stored new : value) : bool :=
  if keyable new then
    existsb (fun k => existsb (bson_eq k) (index_keys new)) (index_keys stored)
  else shares_key srv stored new.

(** The text of the driver's error for a unique index; only the collection
    and the index are kept of it. *)
Definition duplicate_key_text (index : string) : string :=
  "E11000 duplicate key error collection: ats_db.users index: " +:+ index.

(** The calls the collection receives, for statements about what a handler
    reaches. *)
Inductive store_call : Type :=
| CallFindOne (q : filter)
| CallInsertOne (d : User.t).

(** What a handler runs against: the collection, the next identifier the
    driver hands out, the clock, the calls made so far (oldest first), and
    the driver and server behind the collection. *)
Record world : Type := mkWorld {
  users_collection : list document;
  next_oid : ObjectId;
  clock : datetime;
  calls : list store_call;
  backend : server;
}.

(** The world after one more call to the collection. *)
Definition called (c : store_call) (w : world) : world :=
  {| users_collection := users_collection w;
     next_oid := next_oid w;
     clock := clock w;
     calls := calls w ++ [c];
     backend := backend w |}.

(** The world with one more document, stored under the next identifier. *)
Definition stored (d : User.t) (w : world) : world :=
  {| users_collection := users_collection w ++ [mkDoc (next_oid w) d];
     next_oid := (next_oid w + 1)%N;
     clock := clock w;
     calls := calls w;
     backend := backend w |}.

(** [users_collection.find_one(q)]: the first document that matches, unless
    the filter cannot be encoded or is refused. *)
Definition store_find_one (q : filter) (w : world)
    : (exn + option document) * world :=
  (if forallb (fun c => keyable c.2) (conditions q) then
     if forallb (fun c => fits c.2) (conditions q) then
       inr (List.find (matches (backend w) q) (users_collection w))
     else inl (OverflowError overflow_text)
   else
     match refuses_filter (backend w) (conditions q) with
     | Some err => inl err
     | None => inr (List.find (matches (backend w) q) (users_collection w))
     end,
   called (CallFindOne q) w).

(** The unique indexes on [username] and [email]. *)
Definition index_clash (srv : server) (select : User.t -> value) (d : User.t)
    (docs : list document) : bool :=
  existsb (fun old => field_clash srv (select (fields old)) (select d)) docs.

(** The document holds nothing but what is written out here, and all of it
    can be encoded. *)
Definition written_out (d : User.t) : bool :=
  keyable (User.username d) && keyable (User.email d) &&
  simple (User.password d) && simple (User.fullName d) && simple (User.userType d).

Definition encodes (d : User.t) : bool :=
  fits (User.username d) && fits (User.email d) &&
  fits (User.password d) && fits (User.fullName d) && fits (User.userType d).

(** The error the driver or the server raises before the indexes are
    looked at, if any. *)
Definition insert_refusal (srv : server) (d : User.t) : option exn :=
  if written_out d then
    if encodes d then None else Some (OverflowError overflow_text)
  else refuses_document srv d.

(** [users_collection.insert_one(d)]: refused as it is, or by a unique index,
    or stored under a new identifier, which is returned. *)
Definition store_insert_one (d : User.t) (w : world) : (exn + ObjectId) * world :=
  match insert_refusal (backend w) d with
  | Some err => (inl err, called (CallInsertOne d) w)
  | None =>
      if index_clash (backend w) User.username d (users_collection w) then
        (inl (DuplicateKeyError (duplicate_key_text "username_1")),
         called (CallInsertOne d) w)
      else if index_clash (backend w) User.email d (users_collection w) then
        (inl (DuplicateKeyError (duplicate_key_text "email_1")),
         called (CallInsertOne d) w)
      else
        (inr (next_oid w), called (CallInsertOne d) (stored d w))
  end.

(** ** Handler programs *)

(** A handler is a tree of the calls it makes to the outside: reading the
    clock and the two collection operations.  Run on its own it is a function
    of the world ([run]); several of them can also be interleaved call by call
    ([Pool]). *)
Inductive prog (A : Type) : Type :=
| Ret (a : A)
| Raise (err : exn)
| Now (k : datetime -> prog A)
| FindOne (q : filter) (k : exn + option document -> prog A)
| InsertOne (d : User.t) (k : exn + ObjectId -> prog A).

Arguments Ret {A} a.
Arguments Raise {A} err.
Arguments Now {A} k.
Arguments FindOne {A} q k.
Arguments InsertOne {A} d k.

Fixpoint bind {A B : Type} (m : prog A) (f : A -> prog B) : prog B :=
  match m with
  | Ret a => f a
  | Raise err => Raise err
  | Now k => Now (fun t => bind (k t) f)
  | FindOne q k => FindOne q (fun r => bind (k r) f)
  | InsertOne d k => InsertOne d (fun r => bind (k r) f)
  end.

#[export] Instance prog_ret : MRet prog := @Ret.
#[export] Instance prog_bind : MBind prog := fun A B f m => bind m f.

(** [try: body / except Exception as err: handler(err)] *)
Fixpoint try_except {A : Type} (body : prog A) (handler : exn -> prog A) : prog A :=
  match body with
  | Ret a => Ret a
  | Raise err => handler err
  | Now k => Now (fun t => try_except (k t) handler)
  | FindOne q k => FindOne q (fun r => try_except (k r) handler)
  | InsertOne d k => InsertOne d (fun r => try_except (k r) handler)
  end.

Definition datetime_now : prog datetime := Now Ret.

Definition find_one (q : filter) : prog (option document) :=
  FindOne q (fun r =>
    match r with
    | inl err => Raise err
    | inr found => Ret found
    end).

Definition insert_one (d : User.t) : prog ObjectId :=
  InsertOne d (fun r =>
    match r with
    | inl err => Raise err
    | inr inserted_id => Ret inserted_id
    end).

(** [User(username, email, password, fullName, userType)] (lines 65-71). *)
Definition User_init (username email password fullName userType : value) : prog User.t :=
  now ← datetime_now;
  mret (User.mk username email password fullName userType now).

(** What [request.get_json()] does with the body of a request: it raises
    (no body, wrong content type, text that is not JSON) or returns the
    decoded value. *)
Inductive request : Type :=
| NoJson (err : exn)
| Json (data : value).

Definition get_json (request : request) : prog value :=
  match request with
  | NoJson err => Raise err
  | Json data => Ret data
  end.

(** [data.get(key, fallback)]; only a dictionary has a [get]. *)
Definition py_get (data : value) (key : string) (fallback : value) : prog value :=
  match data with
  | VDict d => Ret (default fallback (d !! key))
  | _ => Raise (AttributeError
                  ("'" +:+ type_name data +:+ "' object has no attribute 'get'"))
  end.

(** A response: the JSON body and the status code. *)
Definition response : Type := value * Z.

Definition jsonify (d : gmap string value) : value := VDict d.

(** [register] (lines 113-154). *)
Definition register (request : request) : prog response :=
  try_except
    (data ← get_json request;
     username ← py_get data "username" VNone;
     email ← py_get data "email" VNone;
     password ← py_get data "password" VNone;
     fullName ← py_get data "fullName" VNone;
     userType ← py_get data "userType" (VStr "job_seeker");
     if negb (py_all [username; email; password]) then
       mret (jsonify {[ "error" := VStr "Username, email, and password are required" ]}, 400)
     else
       existing_user ← find_one (FOr [FEq "username" username; FEq "email" email]);
       match existing_user with
       | Some _ =>
           mret (jsonify {[ "error" := VStr "Username or email already exists" ]}, 400)
       | None =>
           new_user ← User_init username email password fullName userType;
           inserted_id ← insert_one (User.to_dict new_user);
           mret (jsonify {[ "message" := VStr "User registered successfully";
                            "userId" := VStr (str_oid inserted_id) ]}, 201)
       end)
    (fun err => mret (jsonify {[ "error" := VStr (str_exn err) ]}, 500)).

(** [login] (lines 157-199). *)
Definition login (request : request) : prog response :=
  try_except
    (data ← get_json request;
     username ← py_get data "username" VNone;
     password ← py_get data "password" VNone;
     if negb (truthy username) || negb (truthy password) then
       mret (jsonify {[ "error" := VStr "Username and password are required" ]}, 400)
     else
       user ← find_one (FEq "username" username);
       match user with
       | None =>
           mret (jsonify {[ "error" := VStr "Invalid username or password" ]}, 401)
       | Some user =>
           if negb (py_eq (User.password (fields user)) password) then
             mret (jsonify {[ "error" := VStr "Invalid username or password" ]}, 401)
           else
             mret (jsonify {[ "message" := VStr "Login successful";
                              "user" := VDict
                                {[ "_id" := VStr (str_oid (_id user));
                                   "username" := User.username (fields user);
                                   "email" := User.email (fields user);
                                   "fullName" := User.fullName (fields user);
                                   "userType" := User.userType (fields user) ]} ]}, 200)
       end)
    (fun err => mret (jsonify {[ "error" := VStr (str_exn err) ]}, 500)).

(** ** Running a handler on its own *)

Fixpoint run {A : Type} (p : prog A) (w : world) : (exn + A) * world :=
  match p with
  | Ret a => (inr a, w)
  | Raise err => (inl err, w)
  | Now k => run (k (clock w)) w
  | FindOne q k => let '(r, w') := store_find_one q w in run (k r) w'
  | InsertOne d k => let '(r, w') := store_insert_one d w in run (k r) w'
  end.

(** ** Interleaving several handlers *)

Module Pool.

(** One call of a handler, made against the world as it is now.  A call to
    the collection is atomic; what happens between two calls of one handler
    is up to the schedule. *)
Definition step {A : Type} (p : prog A) (w : world) : prog A * world :=
  match p with
  | Ret a => (Ret a, w)
  | Raise err => (Raise err, w)
  | Now k => (k (clock w), w)
  | FindOne q k => let '(r, w') := store_find_one q w in (k r, w')
  | InsertOne d k => let '(r, w') := store_insert_one d w in (k r, w')
  end.

(** The requests in flight, each with what is left of its handler. *)
Definition t : Type := list (prog response).

Definition step_at (i : nat) (ps : t) (w : world) : t * world :=
  match ps !! i with
  | Some p => let '(p', w') := step p w in (<[i:=p']> ps, w')
  | None => (ps, w)
  end.

(** A schedule names, call after call, the request that moves next. *)
Fixpoint run_schedule (schedule : list nat) (ps : t) (w : world) : t * world :=
  match schedule with
  | [] => (ps, w)
  | i :: rest => let '(ps', w') := step_at i ps w in run_schedule rest ps' w'
  end.

(** The response of a request that has returned. *)
Definition answer (p : prog response) : option response :=
  match p with
  | Ret r => Some r
  | _ => None
  end.

End Pool.

(** ** The invariant of the collection *)

(** A unique index: no document shares a key, on the indexed field, with one
    stored before it. *)
Definition unique_index (srv : server) (select : User.t -> value)
    (docs : list document) : Prop :=
  forall (i j : nat) (di dj : document),
    docs !! i = Some di -> docs !! j = Some dj -> (i < j)%nat ->
    field_clash srv (select (fields di)) (select (fields dj)) = false.

Record store_ok (w : world) : Prop := {
  ok_username : unique_index (backend w) User.username (users_collection w);
  ok_email : unique_index (backend w) User.email (users_collection w);
  ok_ids : forall doc, doc ∈ users_collection w -> (_id doc < next_oid w)%N;
}.

(** ** Words of the specification *)

(** A required field is missing (no such key, or [null]) or empty. *)
Definition missing_or_empty (d : gmap string value) (key : string) : Prop :=
  d !! key = None \/ d !! key = Some VNone \/ d !! key = Some (VStr "").

(** The body carries the string [s], not empty, under [key]. *)
Definition has_string (d : gmap string value) (key : string) (s : string) : Prop :=
  d !! key = Some (VStr s) /\ s <> "".

(** Some account already has this username or this email. *)
Definition taken (w : world) (u e : string) : Prop :=
  exists doc, doc ∈ users_collection w /\
    (User.username (fields doc) = VStr u \/ User.email (fields doc) = VStr e).

(** The response bodies of the handlers. *)
Definition error_body (text : string) : value :=
  jsonify {[ "error" := VStr text ]}.

Definition registered_body (oid : ObjectId) : value :=
  jsonify {[ "message" := VStr "User registered successfully";
             "userId" := VStr (str_oid oid) ]}.

Definition logged_in_body (user : gmap string value) : value :=
  jsonify {[ "message" := VStr "Login successful"; "user" := VDict user ]}.

(** No account has this username or this email. *)
Definition fresh (w : world) (u e : string) : Prop := ~ taken w u e.

(** The accounts are those of the data model: the username and the email of
    each are strings. *)
Definition accounts_typed (w : world) : Prop :=
  forall doc, doc ∈ users_collection w ->
    (exists s, User.username (fields doc) = VStr s) /\
    (exists s, User.email (fields doc) = VStr s).

(** A value the collection stores as it is: a scalar, with an integer of
    eight bytes at most. *)
Definition storable (v : value) : Prop :=
  is_scalar v = true /\ fits v = true.

(** A decoded body that is not a JSON object. *)
Definition not_an_object (v : value) : Prop :=
  match v with
  | VDict _ => False
  | _ => True
  end.

(** The text of the [AttributeError] that [v.get] raises on such a body. *)
Definition no_get_text (v : value) : string :=
  "'" +:+ type_name v +:+ "' object has no attribute 'get'".

(** The account [register] builds from a body, at time [now]. *)
Definition account_of (d : gmap string value) (now : datetime) : User.t :=
  User.mk (default VNone (d !! "username"))
          (default VNone (d !! "email"))
          (default VNone (d !! "password"))
          (default VNone (d !! "fullName"))
          (default (VStr "job_seeker") (d !! "userType"))
          now.

(** The filter [register] looks for an existing account with. *)
Definition duplicate_filter (d : gmap string value) : filter :=
  FOr [FEq "username" (default VNone (d !! "username"));
       FEq "email" (default VNone (d !! "email"))].

(** The world after a registration that went through: the two calls, the new
    document at the end of the collection under the identifier handed out. *)
Definition after_register (d : gmap string value) (w : world) : world :=
  {| users_collection :=
       users_collection w ++ [mkDoc (next_oid w) (account_of d (clock w))];
     next_oid := (next_oid w + 1)%N;
     clock := clock w;
     calls := calls w ++ [CallFindOne (duplicate_filter d);
                          CallInsertOne (account_of d (clock w))];
     backend := backend w |}.

(** The public part of a stored account, as [login] returns it. *)
Definition public_fields (doc : document) : gmap string value :=
  {[ "_id" := VStr (str_oid (_id doc));
     "username" := User.username (fields doc);
     "email" := User.email (fields doc);
     "fullName" := User.fullName (fields doc);
     "userType" := User.userType (fields doc) ]}.

(** A request whose body is absent, is not JSON, or is JSON but not an
    object. *)
Definition malformed (request : request) : Prop :=
  match request with
  | NoJson _ => True
  | Json v => not_an_object v
  end.

(** The text of the exception such a request ends in. *)
Definition raw_text (request : request) : string :=
  match request with
  | NoJson err => str_exn err
  | Json v => no_get_text v
  end.

(** ** Sample requests and worlds *)

(** A backend that refuses whatever is left to it. *)
Definition strict_server : server :=
  {| refuses_filter := fun _ => Some (PyMongoError "unknown operator");
     selects := fun _ _ => false;
     refuses_document := fun _ => Some (PyMongoError "cannot encode object");
     shares_key := fun _ _ => false |}.

Definition empty_world : world := mkWorld [] 0%N 1700000000 [] strict_server.

Definition jane_register : gmap string value :=
  {[ "username" := VStr "jane";
     "email" := VStr "jane@example.org";
     "password" := VStr "s3cret";
     "fullName" := VStr "Jane";
     "userType" := VStr "recruiter" ]}.

Definition jane_login : gmap string value :=
  {[ "username" := VStr "jane"; "password" := VStr "s3cret" ]}.



(** A second request for the username [jane], from another address. *)
Definition jane_again : gmap string value :=
  {[ "username" := VStr "jane";
     "email" := VStr "other@example.org";
     "password" := VStr "hunter2" ]}.

(** A request for another username, from the address of [jane]. *)
Definition jane_alias : gmap string value :=
  {[ "username" := VStr "jj";
     "email" := VStr "jane@example.org";
     "password" := VStr "pw" ]}.


Definition no_password_register : gmap string value :=
  {[ "username" := VStr "jane"; "email" := VStr "jane@example.org" ]}.

Definition no_password_login : gmap string value :=
  {[ "username" := VStr "jane" ]}.

(** A body that is a JSON array, and a request without a body. *)
Definition array_request : request := Json (VList [VStr "jane"; VStr "s3cret"]).

Definition bodiless_request : request :=
  NoJson (HTTPException "415 Unsupported Media Type: Did not attempt to load JSON data because the request Content-Type was not 'application/json'.").

(** Two registrations for the username [jane] in flight at once, and the
    schedule in which both look the username up before either inserts:
    first the two [find_one], then clock and [insert_one] of the first
    request, then clock and [insert_one] of the second. *)
Definition race_pool : Pool.t :=
  [register (Json (VDict jane_register)); register (Json (VDict jane_again))].

Definition race_schedule : list nat := [0; 1; 0; 0; 1; 1]%nat.

(** The world once [jane] has registered. *)
Definition jane_world : world := after_register jane_register empty_world.

(** ** Helpers and static routes of the application *)

(** [validate_required_fields] (lines 91-94): the names of [required_fields],
    in their order, whose value in [data] is absent or false.  The list
    comprehension calls [data.get] once per name, so it raises on the first
    name when [data] has no [get], and not at all when no name is asked for. *)
Fixpoint validate_required_fields (data : value) (required_fields : list string)
    : prog (list string) :=
  match required_fields with
  | [] => mret []
  | f :: rest =>
      v ← py_get data f VNone;
      missing ← validate_required_fields data rest;
      mret (if negb (truthy v) then f :: missing else missing)
  end.

Section SerializeDoc.

(** The objects a document holds, with [str(x)] and the inclusion of the
    strings among them. *)
Variable V : Type.
Variable py_str : V -> string.
Variable of_str : string -> V.

(** [serialize_doc] (lines 85-89), on [None] or a dictionary. *)
Definition serialize_doc (doc : option (gmap string V)) : option (gmap string V) :=
  match doc with
  | None => None
  | Some d =>
      if negb (bool_decide (d = ∅)) then
        match d !! "_id" with
        | Some x => Some (<["_id" := of_str (py_str x)]> d)
        | None => Some d
        end
      else Some d
  end.

End SerializeDoc.

(** [s.endswith(suffix)] *)
Definition endswith (s suffix : string) : bool :=
  (String.length suffix <=? String.length s)%nat &&
  String.eqb (substring (String.length s - String.length suffix)
                        (String.length suffix) s) suffix.

(** What a static route returns: the file Flask is asked to send, or a text
    with a status. *)
Inductive static_response : Type :=
| SendFromDirectory (directory filename : string)
| Text (body : string) (status : Z).

(** [serve_root] (lines 98-101). *)
Definition serve_root : static_response := SendFromDirectory "." "register.html".

(** [serve_static] (lines 103-108). *)
Definition serve_static (filename : string) : static_response :=
  if endswith filename ".html" then SendFromDirectory "." filename
  else Text "Not Found" 404.

(** ** Words for the properties of the handlers *)

(** The status of a response. *)
Definition status_of (r : exn + response) : option Z :=
  match r with
  | inl _ => None
  | inr (_, status) => Some status
  end.

(** A request in flight that has returned 201. *)
Definition is_created (p : prog response) : bool :=
  match p with
  | Ret (_, status) => status =? 201
  | _ => false
  end.

(** How many requests of a pool have returned 201. *)
Definition successes (ps : Pool.t) : nat := length (List.filter is_created ps).

(** The stored accounts that have the username [u]. *)
Definition named (u : string) (docs : list document) : list document :=
  List.filter (fun doc => bson_eq (User.username (fields doc)) (VStr u)) docs.

(** What is left of [register] once the existence check found nothing. *)
Definition register_tail (username email password fullName userType : value)
    : prog response :=
  try_except
    (new_user ← User_init username email password fullName userType;
     inserted_id ← insert_one (User.to_dict new_user);
     mret (jsonify {[ "message" := VStr "User registered successfully";
                      "userId" := VStr (str_oid inserted_id) ]}, 201))
    (fun err => mret (jsonify {[ "error" := VStr (str_exn err) ]}, 500)).

(** What is left of it once the account is built. *)
Definition register_inserting (new_user : User.t) : prog response :=
  try_except
    (inserted_id ← insert_one (User.to_dict new_user);
     mret (jsonify {[ "message" := VStr "User registered successfully";
                      "userId" := VStr (str_oid inserted_id) ]}, 201))
    (fun err => mret (jsonify {[ "error" := VStr (str_exn err) ]}, 500)).

(** The places a registration of body [d] can be at. *)
Inductive in_flight (d : gmap string value) : prog response -> Prop :=
| at_check : in_flight d (register (Json (VDict d)))
| at_clock :
    in_flight d (register_tail (default VNone (d !! "username"))
                               (default VNone (d !! "email"))
                               (default VNone (d !! "password"))
                               (default VNone (d !! "fullName"))
                               (default (VStr "job_seeker") (d !! "userType")))
| at_insert (now : datetime) : in_flight d (register_inserting (account_of d now))
| at_done (r : response) : in_flight d (Ret r).

(** A program whose exceptions all end in a response: a [try] whose
    [except] clause returns. *)
Definition guarded (p : prog response) : Prop :=
  exists (body : prog response) (recover : exn -> response),
    p = try_except body (fun err => Ret (recover err)).

(** The handlers in flight for some registrations and some logins. *)
Definition handlers (registrations logins : list request) : Pool.t :=
  map register registrations ++ map login logins.

(** An identifier that is an [ObjectId] or already a string, with its [str]. *)
Definition id_str (x : string + ObjectId) : string :=
  match x with
  | inl s => s
  | inr oid => str_oid oid
  end.

Definition stored_jane : gmap string (string + ObjectId) :=
  {[ "_id" := inr 10%N; "username" := inl "jane" ]}.

(** A body with a number where the username goes. *)
Definition numeric_register : gmap string value :=
  {[ "username" := VInt 7; "email" := VStr "seven@example.org"; "password" := VStr "pw" ]}.

(** ** Basic facts *)

Lemma bson_eq_str (v : value) (s : string) :
  bson_eq v (VStr s) = true <-> v = VStr s.
Proof.
  destruct v; simpl; split; try discriminate; try congruence.
  - intros H. apply String.eqb_eq in H. by subst.
  - intros [= ->]. apply String.eqb_refl.
Qed.


Lemma truthy_str (s : string) : s <> "" -> truthy (VStr s) = true.
Proof.
  intros Hs. simpl. destruct (String.eqb_spec s ""); [contradiction | reflexivity].
Qed.

Lemma falsy_missing_or_empty (d : gmap string value) (key : string) :
  missing_or_empty d key -> truthy (default VNone (d !! key)) = false.
Proof. intros [-> | [-> | ->]]; reflexivity. Qed.

Lemma find_none_forall {A : Type} (f : A -> bool) (l : list A) :
  List.find f l = None <-> (forall x, x ∈ l -> f x = false).
Proof.
  induction l as [| a l IH]; simpl.
  - split; [intros _ x Hx; inversion Hx | reflexivity].
  - destruct (f a) eqn:Ha.
    + split; [discriminate |].
      intros H. rewrite (H a) in Ha; [discriminate | left].
    + rewrite IH. split.
      * intros H x Hx. apply elem_of_cons in Hx as [-> | Hx]; auto.
      * intros H x Hx. apply H. by right.
Qed.


(** A string against a stored value: it is the value, or one of the elements
    of the list the value is. *)
Lemma holds_str_iff (stored : value) (s : string) :
  holds stored (VStr s) = true <->
  stored = VStr s \/ exists l, stored = VList l /\ VStr s ∈ l.
Proof.
  unfold holds. rewrite orb_true_iff, bson_eq_str. split.
  - intros [H | H]; [by left | right].
    destruct stored as [| | | | l |]; try discriminate.
    exists l. split; [done |].
    apply existsb_exists in H as (x & Hx & Heq).
    apply bson_eq_str in Heq as ->. by apply list_elem_of_In.
  - intros [H | (l & -> & Hin)]; [by left | right].
    apply existsb_exists. exists (VStr s).
    split; [by apply list_elem_of_In | by apply bson_eq_str].
Qed.

Lemma holds_str_typed (s' s : string) :
  holds (VStr s') (VStr s) = true <-> VStr s' = VStr s.
Proof.
  rewrite holds_str_iff. split; [| by left].
  intros [H | (l & H & _)]; [done | discriminate].
Qed.

Lemma field_clash_str_iff (srv : server) (stored : value) (s : string) :
  field_clash srv stored (VStr s) = holds stored (VStr s).
Proof.
  unfold field_clash, holds. cbn [keyable is_key index_keys existsb].
  destruct stored as [| b | z | t | l | d]; cbn [index_keys existsb bson_eq orb];
    rewrite ?orb_false_r; try reflexivity.
  induction l as [| x l IH]; [reflexivity |].
  cbn [existsb]. by rewrite orb_false_r, IH.
Qed.

Lemma matches_username (srv : server) (doc : document) (u : string) :
  matches srv (FEq "username" (VStr u)) doc = holds (User.username (fields doc)) (VStr u).
Proof. reflexivity. Qed.

Lemma matches_username_or_email (srv : server) (doc : document) (u e : string) :
  matches srv (FOr [FEq "username" (VStr u); FEq "email" (VStr e)]) doc =
  holds (User.username (fields doc)) (VStr u) || holds (User.email (fields doc)) (VStr e).
Proof. simpl. by rewrite orb_false_r. Qed.

Lemma index_clash_false (srv : server) (select : User.t -> value) (d : User.t)
    (docs : list document) :
  index_clash srv select d docs = false <->
  (forall old, old ∈ docs -> field_clash srv (select (fields old)) (select d) = false).
Proof.
  unfold index_clash. induction docs as [| a docs IH]; simpl.
  - split; [intros _ x Hx; inversion Hx | reflexivity].
  - rewrite orb_false_iff, IH. split.
    + intros [Ha H] old Hold. apply elem_of_cons in Hold as [-> | Hold]; auto.
    + intros H. split; [apply H; left | intros old Hold; apply H; by right].
Qed.

(** ** What the collection does *)

(** A filter on strings is always answered with the first match. *)
Lemma find_one_username (u : string) (w : world) :
  store_find_one (FEq "username" (VStr u)) w =
    (inr (List.find (matches (backend w) (FEq "username" (VStr u))) (users_collection w)),
     called (CallFindOne (FEq "username" (VStr u))) w).
Proof. reflexivity. Qed.

Lemma find_one_username_or_email (u e : string) (w : world) :
  store_find_one (FOr [FEq "username" (VStr u); FEq "email" (VStr e)]) w =
    (inr (List.find (matches (backend w) (FOr [FEq "username" (VStr u); FEq "email" (VStr e)]))
            (users_collection w)),
     called (CallFindOne (FOr [FEq "username" (VStr u); FEq "email" (VStr e)])) w).
Proof. reflexivity. Qed.

(** [find_one] changes nothing but the record of calls. *)
Lemma find_one_world (q : filter) (w : world) :
  (store_find_one q w).2 = called (CallFindOne q) w.
Proof. reflexivity. Qed.

(** [insert_one] is refused and changes nothing but the record of calls, or
    stores the document under the next identifier. *)
Lemma insert_one_cases (d : User.t) (w : world) :
  (exists err, store_insert_one d w = (inl err, called (CallInsertOne d) w)) \/
  (store_insert_one d w = (inr (next_oid w), called (CallInsertOne d) (stored d w)) /\
   index_clash (backend w) User.username d (users_collection w) = false /\
   index_clash (backend w) User.email d (users_collection w) = false).
Proof.
  unfold store_insert_one.
  destruct (insert_refusal _ _) as [err |]; [left; by eexists |].
  destruct (index_clash _ User.username _ _); [left; by eexists |].
  destruct (index_clash _ User.email _ _); [left; by eexists |].
  right. done.
Qed.

(** ** What the handlers compute *)

(** [register] on a body that is a dictionary, case by case. *)
Lemma run_register_dict (d : gmap string value) (w : world) :
  let username := default VNone (d !! "username") in
  let email := default VNone (d !! "email") in
  let password := default VNone (d !! "password") in
  let fullName := default VNone (d !! "fullName") in
  let userType := default (VStr "job_seeker") (d !! "userType") in
  let q := FOr [FEq "username" username; FEq "email" email] in
  let new_user := User.mk username email password fullName userType (clock w) in
  run (register (Json (VDict d))) w =
    if negb (py_all [username; email; password]) then
      (inr (error_body "Username, email, and password are required", 400), w)
    else
      match store_find_one q w with
      | (inl err, w1) => (inr (error_body (str_exn err), 500), w1)
      | (inr (Some _), w1) =>
          (inr (error_body "Username or email already exists", 400), w1)
      | (inr None, w1) =>
          match store_insert_one new_user w1 with
          | (inl err, w') => (inr (error_body (str_exn err), 500), w')
          | (inr oid, w') => (inr (registered_body oid, 201), w')
          end
      end.
Proof.
  intros. unfold register, get_json, py_get. cbn [mbind prog_bind bind try_except].
  fold username email password fullName userType.
  destruct (negb (py_all [username; email; password])); [reflexivity |].
  cbn [find_one mbind prog_bind bind try_except run].
  fold q.
  destruct (store_find_one q w) as [[err | [found |]] w1] eqn:Hfind;
    [reflexivity | reflexivity |].
  assert (Hclock : clock w1 = clock w).
  { change w1 with (inr (A:=exn) (@None document), w1).2. by rewrite <- Hfind. }
  cbn [User_init datetime_now insert_one mbind mret prog_ret prog_bind bind
       try_except run].
  rewrite Hclock. change (User.to_dict _) with new_user.
  destruct (store_insert_one new_user w1) as [[err | oid] w']; reflexivity.
Qed.

(** [login] on a body that is a dictionary, case by case. *)
Lemma run_login_dict (d : gmap string value) (w : world) :
  let username := default VNone (d !! "username") in
  let password := default VNone (d !! "password") in
  let q := FEq "username" username in
  run (login (Json (VDict d))) w =
    if negb (truthy username) || negb (truthy password) then
      (inr (error_body "Username and password are required", 400), w)
    else
      match store_find_one q w with
      | (inl err, w1) => (inr (error_body (str_exn err), 500), w1)
      | (inr None, w1) => (inr (error_body "Invalid username or password", 401), w1)
      | (inr (Some user), w1) =>
          if negb (py_eq (User.password (fields user)) password) then
            (inr (error_body "Invalid username or password", 401), w1)
          else
            (inr (logged_in_body
                    {[ "_id" := VStr (str_oid (_id user));
                       "username" := User.username (fields user);
                       "email" := User.email (fields user);
                       "fullName" := User.fullName (fields user);
                       "userType" := User.userType (fields user) ]}, 200), w1)
      end.
Proof.
  intros. unfold login, get_json, py_get. cbn [mbind prog_bind bind try_except].
  fold username password.
  destruct (negb (truthy username) || negb (truthy password)); [reflexivity |].
  cbn [find_one mbind prog_bind bind try_except run].
  fold q.
  destruct (store_find_one q w) as [[err | [user |]] w1]; [reflexivity | | reflexivity].
  cbn [mbind prog_bind bind try_except].
  destruct (negb (py_eq (User.password (fields user)) password)); reflexivity.
Qed.

(** A handler given a body that [get_json] rejects, or that is not a
    dictionary, makes no call at all. *)
Lemma run_register_no_json (err : exn) (w : world) :
  run (register (NoJson err)) w = (inr (error_body (str_exn err), 500), w).
Proof. reflexivity. Qed.

Lemma run_login_no_json (err : exn) (w : world) :
  run (login (NoJson err)) w = (inr (error_body (str_exn err), 500), w).
Proof. reflexivity. Qed.

Lemma run_register_not_object (v : value) (w : world) :
  not_an_object v ->
  run (register (Json v)) w = (inr (error_body (no_get_text v), 500), w).
Proof. destruct v; simpl; intros H; try reflexivity; contradiction. Qed.

Lemma run_login_not_object (v : value) (w : world) :
  not_an_object v ->
  run (login (Json v)) w = (inr (error_body (no_get_text v), 500), w).
Proof. destruct v; simpl; intros H; try reflexivity; contradiction. Qed.

(** ** The existence check and the unique indexes *)

Lemma scalar_simple (v : value) : is_scalar v = true -> simple v = true.
Proof. by destruct v. Qed.

Section Lookup.

Variables (w : world) (d : gmap string value) (u e : string).
Hypothesis Hu : d !! "username" = Some (VStr u).
Hypothesis He : d !! "email" = Some (VStr e).

Lemma duplicate_filter_strings :
  duplicate_filter d = FOr [FEq "username" (VStr u); FEq "email" (VStr e)].
Proof using Hu He. unfold duplicate_filter. by rewrite Hu, He. Qed.

Lemma find_duplicate_none :
  accounts_typed w -> fresh w u e ->
  List.find (matches (backend w) (duplicate_filter d)) (users_collection w) = None.
Proof using Hu He.
  intros Htyped Hfresh. rewrite duplicate_filter_strings.
  apply find_none_forall. intros doc Hdoc.
  apply not_true_is_false. intros Hm.
  rewrite matches_username_or_email, orb_true_iff in Hm.
  destruct (Htyped doc Hdoc) as [[s Hs] [s' Hs']].
  rewrite Hs, Hs', !holds_str_typed in Hm.
  apply Hfresh. exists doc. split; [done |]. by rewrite Hs, Hs'.
Qed.

Lemma find_duplicate_some :
  taken w u e ->
  exists doc,
    List.find (matches (backend w) (duplicate_filter d)) (users_collection w) = Some doc.
Proof using Hu He.
  intros (doc & Hdoc & Hm). rewrite duplicate_filter_strings.
  destruct (List.find _ (users_collection w)) as [found |] eqn:Hfind; [by eexists |].
  exfalso. rewrite find_none_forall in Hfind. specialize (Hfind doc Hdoc).
  rewrite matches_username_or_email, orb_false_iff in Hfind.
  destruct Hfind as [Hname Hmail].
  destruct Hm as [Hm | Hm].
  - assert (holds (User.username (fields doc)) (VStr u) = true)
      by (apply holds_str_iff; by left). congruence.
  - assert (holds (User.email (fields doc)) (VStr e) = true)
      by (apply holds_str_iff; by left). congruence.
Qed.

Lemma insert_fresh (w1 : world) (now : datetime) (p : string) :
  d !! "password" = Some (VStr p) ->
  storable (default VNone (d !! "fullName")) ->
  storable (default (VStr "job_seeker") (d !! "userType")) ->
  users_collection w1 = users_collection w ->
  backend w1 = backend w ->
  accounts_typed w -> fresh w u e ->
  store_insert_one (account_of d now) w1 =
    (inr (next_oid w1),
     called (CallInsertOne (account_of d now)) (stored (account_of d now) w1)).
Proof using Hu He.
  intros Hp [Hfs Hff] [Hts Htf] Husers Hsrv Htyped Hfresh.
  unfold store_insert_one.
  assert (Hok : insert_refusal (backend w1) (account_of d now) = None).
  { unfold insert_refusal, written_out, encodes, account_of.
    cbn [User.username User.email User.password User.fullName User.userType].
    rewrite Hu, He, Hp. cbn [default from_option id keyable is_key simple is_scalar fits andb].
    by rewrite (scalar_simple _ Hfs), (scalar_simple _ Hts), Hff, Htf. }
  assert (Hname : index_clash (backend w1) User.username (account_of d now)
                    (users_collection w1) = false).
  { apply index_clash_false. intros old Hold. simpl. rewrite Hu. simpl.
    rewrite Husers in Hold. destruct (Htyped old Hold) as [[s Hs] _].
    rewrite field_clash_str_iff, Hs.
    apply not_true_is_false. intros Hm. apply holds_str_typed in Hm.
    apply Hfresh. exists old. split; [done |]. left. by rewrite Hs. }
  assert (Hmail : index_clash (backend w1) User.email (account_of d now)
                    (users_collection w1) = false).
  { apply index_clash_false. intros old Hold. simpl. rewrite He. simpl.
    rewrite Husers in Hold. destruct (Htyped old Hold) as [_ [s Hs]].
    rewrite field_clash_str_iff, Hs.
    apply not_true_is_false. intros Hm. apply holds_str_typed in Hm.
    apply Hfresh. exists old. split; [done |]. right. by rewrite Hs. }
  by rewrite Hok, Hname, Hmail.
Qed.

End Lookup.

(** A registration with the three required strings, none of them taken, and
    a [fullName] and a [userType] the collection stores as they are, in a
    collection of typed accounts. *)
Lemma run_register_fresh (w : world) (d : gmap string value) (u e p : string) :
  accounts_typed w ->
  has_string d "username" u -> has_string d "email" e -> has_string d "password" p ->
  storable (default VNone (d !! "fullName")) ->
  storable (default (VStr "job_seeker") (d !! "userType")) ->
  fresh w u e ->
  run (register (Json (VDict d))) w =
    (inr (registered_body (next_oid w), 201), after_register d w).
Proof.
  intros Htyped [Hu Hu'] [He He'] [Hp Hp'] Hfull Htype Hfresh.
  rewrite run_register_dict. cbv zeta.
  pose proof (find_duplicate_none w d u e Hu He Htyped Hfresh) as Hfind.
  pose proof (insert_fresh w d u e Hu He
                (called (CallFindOne (duplicate_filter d)) w) (clock w) p
                Hp Hfull Htype eq_refl eq_refl Htyped Hfresh) as Hins.
  unfold account_of, duplicate_filter in Hfind, Hins.
  rewrite Hu, He, Hp in *. cbn [default from_option id py_all forallb] in *.
  rewrite !truthy_str by done. cbn [andb negb].
  rewrite find_one_username_or_email, Hfind, Hins.
  unfold after_register, account_of, duplicate_filter, called, stored.
  rewrite Hu, He, Hp. cbn [default from_option id users_collection next_oid clock calls backend].
  by rewrite <- app_assoc.
Qed.

(** A registration with the three required strings, one of the two taken. *)
Lemma run_register_taken (w : world) (d : gmap string value) (u e p : string) :
  has_string d "username" u -> has_string d "email" e -> has_string d "password" p ->
  taken w u e ->
  run (register (Json (VDict d))) w =
    (inr (error_body "Username or email already exists", 400),
     called (CallFindOne (duplicate_filter d)) w).
Proof.
  intros [Hu Hu'] [He He'] [Hp Hp'] Htaken.
  rewrite run_register_dict. cbv zeta.
  destruct (find_duplicate_some w d u e Hu He Htaken) as [doc Hfind].
  unfold duplicate_filter in *. rewrite Hu, He, Hp in *.
  cbn [default from_option id py_all forallb] in *.
  rewrite !truthy_str by done. cbn [andb negb].
  by rewrite find_one_username_or_email, Hfind.
Qed.

(** ** The invariant is kept *)

Lemma unique_index_nil (srv : server) (select : User.t -> value) :
  unique_index srv select [].
Proof. intros i j di dj Hi. by rewrite lookup_nil in Hi. Qed.

Lemma unique_index_snoc (srv : server) (select : User.t -> value)
    (docs : list document) (oid : ObjectId) (d : User.t) :
  unique_index srv select docs ->
  index_clash srv select d docs = false ->
  unique_index srv select (docs ++ [mkDoc oid d]).
Proof.
  intros Huniq Hclash i j di dj Hi Hj Hlt.
  rewrite index_clash_false in Hclash.
  destruct (decide (j < length docs)%nat) as [Hj' | Hj'].
  - rewrite lookup_app_l in Hi by lia. rewrite lookup_app_l in Hj by lia.
    by eapply Huniq.
  - assert (j = length docs) as ->.
    { apply lookup_lt_Some in Hj. rewrite length_app in Hj. simpl in Hj. lia. }
    rewrite lookup_app_l in Hi by lia.
    rewrite list_lookup_middle in Hj by done. injection Hj as <-.
    simpl. apply Hclash. by eapply list_elem_of_lookup_2.
Qed.

Lemma store_ok_empty (now : datetime) (log : list store_call) (oid : ObjectId)
    (srv : server) :
  store_ok (mkWorld [] oid now log srv).
Proof.
  split; simpl; [apply unique_index_nil | apply unique_index_nil |].
  intros doc Hdoc. inversion Hdoc.
Qed.

Lemma store_ok_called (c : store_call) (w : world) :
  store_ok w -> store_ok (called c w).
Proof. intros [? ? ?]. by split. Qed.

Lemma store_ok_insert (d : User.t) (w : world) :
  store_ok w -> store_ok (store_insert_one d w).2.
Proof.
  intros Hok.
  destruct (insert_one_cases d w) as [[err ->] | (-> & Hcn & Hce)]; cbn [snd].
  - by apply store_ok_called.
  - apply store_ok_called. destruct Hok as [Hname Hmail Hids]. split; simpl.
    + by apply unique_index_snoc.
    + by apply unique_index_snoc.
    + intros doc Hdoc. apply elem_of_app in Hdoc as [Hdoc | Hdoc].
      * specialize (Hids doc Hdoc). lia.
      * apply list_elem_of_singleton in Hdoc as ->. simpl. lia.
Qed.

(** Every world a handler leaves behind satisfies the invariant again. *)
Lemma store_ok_run {A : Type} (p : prog A) (w : world) :
  store_ok w -> store_ok (run p w).2.
Proof.
  revert w. induction p as [a | err | k IH | q k IH | d k IH]; intros w Hok; simpl.
  - done.
  - done.
  - by apply IH.
  - apply IH. by apply (store_ok_called (CallFindOne q)).
  - destruct (store_insert_one d w) as [r w'] eqn:Hins.
    apply IH. change w' with (r, w').2. rewrite <- Hins. by apply store_ok_insert.
Qed.


(** ** Facts about the sample worlds *)

Lemma fresh_empty (now : datetime) (log : list store_call) (oid : ObjectId)
    (srv : server) (u e : string) :
  fresh (mkWorld [] oid now log srv) u e.
Proof. intros (doc & Hdoc & _). inversion Hdoc. Qed.

Lemma typed_empty (now : datetime) (log : list store_call) (oid : ObjectId)
    (srv : server) :
  accounts_typed (mkWorld [] oid now log srv).
Proof. intros doc Hdoc. inversion Hdoc. Qed.


Lemma storable_str (s : string) : storable (VStr s).
Proof. by split. Qed.

Lemma jane_world_ok : store_ok jane_world.
Proof.
  split.
  - intros i j di dj Hi Hj Hlt. destruct i, j; try lia; discriminate Hj.
  - intros i j di dj Hi Hj Hlt. destruct i, j; try lia; discriminate Hj.
  - intros doc Hdoc. apply list_elem_of_singleton in Hdoc as ->. reflexivity.
Qed.


(** A registration answered 201 has stored its account at the end of the
    collection. *)
Lemma register_created (d : gmap string value) (w w1 : world) (body : value) :
  run (register (Json (VDict d))) w = (inr (body, 201), w1) ->
  users_collection w1 =
    users_collection w ++ [mkDoc (next_oid w) (account_of d (clock w))].
Proof.
  rewrite run_register_dict. cbv zeta.
  destruct (negb _); [intros [= _ H]; discriminate H |].
  rewrite (surjective_pairing (store_find_one _ w)), find_one_world.
  destruct (store_find_one _ w).1 as [err | [found |]];
    [intros [= _ H]; discriminate H | intros [= _ H]; discriminate H |].
  match goal with |- context [store_insert_one ?nu ?w0] =>
    destruct (insert_one_cases nu w0) as [[err ->] | (-> & _)] end.
  - intros [= _ H]; discriminate H.
  - by intros [= _ <-].
Qed.

(** * Registration *)



(** C4.  A registration with the three required strings whose username or
    whose email an existing account already has answers 400 with
    "Username or email already exists"; the collection is read once and not
    written.  In particular, after a registration that was answered 201, a
    second one with the same username (whatever its email) is refused, and so
    is a second one with the same email (whatever its username). *)
Theorem register_duplicate_refused (w : world) (d : gmap string value) (u e p : string) :
  has_string d "username" u -> has_string d "email" e -> has_string d "password" p ->
  (taken w u e ->
     exists w',
       run (register (Json (VDict d))) w =
         (inr (jsonify {[ "error" := VStr "Username or email already exists" ]}, 400), w') /\
       users_collection w' = users_collection w /\
       next_oid w' = next_oid w /\
       calls w' = calls w ++ [CallFindOne (duplicate_filter d)]) /\
  (forall (w1 : world) (body1 : value),
     run (register (Json (VDict d))) w = (inr (body1, 201), w1) ->
     forall (d2 : gmap string value) (u2 e2 p2 : string),
       has_string d2 "username" u2 -> has_string d2 "email" e2 ->
       has_string d2 "password" p2 ->
       u2 = u \/ e2 = e ->
       exists w2,
         run (register (Json (VDict d2))) w1 =
           (inr (jsonify {[ "error" := VStr "Username or email already exists" ]}, 400), w2) /\
         users_collection w2 = users_collection w1).
Proof.
  intros Hu He Hp. split.
  - intros Htaken. eexists. split; [by apply (run_register_taken w d u e p) |]. done.
  - intros w1 body1 Hrun d2 u2 e2 p2 Hu2 He2 Hp2 Hsame.
    apply register_created in Hrun.
    eexists. split; [apply (run_register_taken _ d2 u2 e2 p2); try done | done].
    exists (mkDoc (next_oid w) (account_of d (clock w))). split.
    + rewrite Hrun. apply elem_of_app. right. by left.
    + destruct Hu as [Hu _], He as [He _]. unfold account_of. simpl.
      rewrite Hu, He. simpl. destruct Hsame as [-> | ->]; auto.
Qed.

Lemma register_duplicate_refused_witness :
  (exists w',
     run (register (Json (VDict jane_again))) jane_world =
       (inr (jsonify {[ "error" := VStr "Username or email already exists" ]}, 400), w') /\
     users_collection w' = users_collection jane_world /\
     next_oid w' = next_oid jane_world /\
     calls w' = calls jane_world ++ [CallFindOne (duplicate_filter jane_again)]) /\
  (exists w2,
     run (register (Json (VDict jane_again)))
         (run (register (Json (VDict jane_register))) empty_world).2 =
       (inr (jsonify {[ "error" := VStr "Username or email already exists" ]}, 400), w2) /\
     users_collection w2 =
       users_collection (run (register (Json (VDict jane_register))) empty_world).2) /\
  (exists w2,
     run (register (Json (VDict jane_alias)))
         (run (register (Json (VDict jane_register))) empty_world).2 =
       (inr (jsonify {[ "error" := VStr "Username or email already exists" ]}, 400), w2) /\
     users_collection w2 =
       users_collection (run (register (Json (VDict jane_register))) empty_world).2).
Proof.
  assert (Hjane : has_string jane_register "username" "jane" /\
                  has_string jane_register "email" "jane@example.org" /\
                  has_string jane_register "password" "s3cret").
  { repeat split; try reflexivity; discriminate. }
  destruct Hjane as (Hu & He & Hp).
  split; [| split].
  - apply (register_duplicate_refused jane_world jane_again
             "jane" "other@example.org" "hunter2").
    + split; [reflexivity | discriminate].
    + split; [reflexivity | discriminate].
    + split; [reflexivity | discriminate].
    + exists (mkDoc 0%N (account_of jane_register (clock empty_world))).
      split; [left | left; reflexivity].
  - apply (proj2 (register_duplicate_refused empty_world jane_register
                    "jane" "jane@example.org" "s3cret" Hu He Hp)
             _ (registered_body 0%N) eq_refl
             jane_again "jane" "other@example.org" "hunter2").
    + split; [reflexivity | discriminate].
    + split; [reflexivity | discriminate].
    + split; [reflexivity | discriminate].
    + left. reflexivity.
  - apply (proj2 (register_duplicate_refused empty_world jane_register
                    "jane" "jane@example.org" "s3cret" Hu He Hp)
             _ (registered_body 0%N) eq_refl
             jane_alias "jj" "jane@example.org" "pw").
    + split; [reflexivity | discriminate].
    + split; [reflexivity | discriminate].
    + split; [reflexivity | discriminate].
    + right. reflexivity.
Defined.

(** C5.  A registration in which the username, the email or the password is
    missing or empty answers 400 with "Username, email, and password are
    required" and leaves the world as it was: the collection, the identifier
    counter and the record of calls are unchanged, so neither [find_one] nor
    [insert_one] was reached. *)
Theorem register_requires_fields (w : world) (d : gmap string value) :
  missing_or_empty d "username" \/ missing_or_empty d "email" \/
  missing_or_empty d "password" ->
  run (register (Json (VDict d))) w =
    (inr (jsonify {[ "error" := VStr "Username, email, and password are required" ]}, 400), w) /\
  register (Json (VDict d)) =
    Ret (jsonify {[ "error" := VStr "Username, email, and password are required" ]}, 400).
Proof.
  intros Hmissing.
  assert (Hall : py_all [default VNone (d !! "username");
                         default VNone (d !! "email");
                         default VNone (d !! "password")] = false).
  { cbn [py_all forallb].
    destruct Hmissing as [H | [H | H]]; apply falsy_missing_or_empty in H; rewrite H;
      [reflexivity | by rewrite andb_false_r | by rewrite !andb_false_r]. }
  split.
  - rewrite run_register_dict. cbv zeta. by rewrite Hall.
  - unfold register, get_json, py_get. cbn [mbind prog_bind bind try_except].
    by rewrite Hall.
Qed.

Lemma register_requires_fields_witness :
  run (register (Json (VDict no_password_register))) jane_world =
    (inr (jsonify {[ "error" := VStr "Username, email, and password are required" ]}, 400),
     jane_world) /\
  register (Json (VDict no_password_register)) =
    Ret (jsonify {[ "error" := VStr "Username, email, and password are required" ]}, 400).
Proof.
  apply (register_requires_fields jane_world no_password_register).
  right. right. left. reflexivity.
Defined.



(** * Login *)

(** [login] once the two required strings are there. *)
Lemma run_login_strings (w : world) (l : gmap string value) (u p : string) :
  has_string l "username" u -> has_string l "password" p ->
  run (login (Json (VDict l))) w =
    (match List.find (matches (backend w) (FEq "username" (VStr u)))
             (users_collection w) with
     | None => inr (error_body "Invalid username or password", 401)
     | Some user =>
         if py_eq (User.password (fields user)) (VStr p)
         then inr (logged_in_body (public_fields user), 200)
         else inr (error_body "Invalid username or password", 401)
     end,
     called (CallFindOne (FEq "username" (VStr u))) w).
Proof.
  intros [Hu Hu'] [Hp Hp']. rewrite run_login_dict. cbv zeta.
  rewrite Hu, Hp. cbn [default from_option id].
  rewrite !truthy_str by done. cbn [negb orb].
  rewrite find_one_username.
  destruct (List.find _ _) as [user |]; [| reflexivity].
  by destruct (py_eq _ _).
Qed.



Lemma public_fields_no_password (doc : document) :
  public_fields doc !! "password" = None.
Proof. reflexivity. Qed.



Lemma find_app_none {A : Type} (f : A -> bool) (l1 l2 : list A) :
  List.find f l1 = None -> List.find f (l1 ++ l2) = List.find f l2.
Proof.
  induction l1 as [| a l1 IH]; simpl; [done |].
  destruct (f a); [discriminate | exact IH].
Qed.

(** A login right after the registration of the same username and password,
    in the world that registration left. *)
Lemma login_after_register (w : world) (d l : gmap string value) (u e p : string) :
  accounts_typed w ->
  has_string d "username" u -> d !! "password" = Some (VStr p) -> p <> "" ->
  fresh w u e ->
  l !! "username" = Some (VStr u) -> l !! "password" = Some (VStr p) ->
  (run (login (Json (VDict l))) (after_register d w)).1 =
    inr (logged_in_body
           (public_fields (mkDoc (next_oid w) (account_of d (clock w)))), 200).
Proof.
  intros Htyped [Hu Hu'] Hp Hp' Hfresh Hlu Hlp.
  rewrite (run_login_strings _ l u p) by done.
  cbn [fst after_register users_collection backend].
  rewrite find_app_none.
  - cbn [List.find]. rewrite matches_username.
    cbn [fields account_of User.username User.password].
    rewrite Hu. cbn [default from_option id].
    assert (Hm : holds (VStr u) (VStr u) = true) by by apply holds_str_typed.
    rewrite Hm. cbn [fields account_of User.password].
    rewrite Hp. cbn [default from_option id py_eq].
    by rewrite String.eqb_refl.
  - apply find_none_forall. intros doc Hdoc.
    apply not_true_is_false. intros Hm. rewrite matches_username in Hm.
    destruct (Htyped doc Hdoc) as [[s Hs] _].
    rewrite Hs in Hm. apply holds_str_typed in Hm.
    apply Hfresh. exists doc. split; [done |]. left. by rewrite Hs.
Qed.



(** The round trip of the specification, computed: [jane] registers as a
    recruiter and logs in. *)
Example jane_round_trip :
  (run (login (Json (VDict jane_login)))
       (run (register (Json (VDict jane_register))) empty_world).2).1 =
  inr (jsonify {[ "message" := VStr "Login successful";
                  "user" := VDict {[ "_id" := VStr "000000000000000000000000";
                                     "username" := VStr "jane";
                                     "email" := VStr "jane@example.org";
                                     "fullName" := VStr "Jane";
                                     "userType" := VStr "recruiter" ]} ]}, 200).
Proof. vm_compute. reflexivity. Qed.



(** C7.  A login whose username or password is missing (or empty) answers
    400 with "Username and password are required" and leaves the world as it
    was: the handler returns without a call to the collection. *)
Theorem login_requires_fields (w : world) (l : gmap string value) :
  missing_or_empty l "username" \/ missing_or_empty l "password" ->
  run (login (Json (VDict l))) w =
    (inr (jsonify {[ "error" := VStr "Username and password are required" ]}, 400), w) /\
  login (Json (VDict l)) =
    Ret (jsonify {[ "error" := VStr "Username and password are required" ]}, 400).
Proof.
  intros Hmissing.
  assert (Hnot : negb (truthy (default VNone (l !! "username"))) ||
                 negb (truthy (default VNone (l !! "password"))) = true).
  { destruct Hmissing as [H | H]; apply falsy_missing_or_empty in H; rewrite H;
      [reflexivity | apply orb_true_r]. }
  split.
  - rewrite run_login_dict. cbv zeta. by rewrite Hnot.
  - unfold login, get_json, py_get. cbn [mbind prog_bind bind try_except].
    by rewrite Hnot.
Qed.

Lemma login_requires_fields_witness :
  run (login (Json (VDict no_password_login))) jane_world =
    (inr (jsonify {[ "error" := VStr "Username and password are required" ]}, 400),
     jane_world) /\
  login (Json (VDict no_password_login)) =
    Ret (jsonify {[ "error" := VStr "Username and password are required" ]}, 400).
Proof.
  apply (login_requires_fields jane_world no_password_login).
  right. left. reflexivity.
Defined.

(** * Bodies that are not JSON objects *)

(** C10.  When the body of a request to [register] or to [login] is absent,
    is not JSON, or is JSON but not an object, the answer is 500 with the text
    of the exception under [error] (that of Flask when [get_json] raised, that
    of the [AttributeError] for the missing [get] otherwise), not the 400 of
    the validation; the world is left as it was. *)
Theorem malformed_body_500 (w : world) (request : request) :
  malformed request ->
  run (register request) w =
    (inr (jsonify {[ "error" := VStr (raw_text request) ]}, 500), w) /\
  run (login request) w =
    (inr (jsonify {[ "error" := VStr (raw_text request) ]}, 500), w).
Proof.
  destruct request as [err | v]; intros Hbad.
  - split; [apply run_register_no_json | apply run_login_no_json].
  - split; [by apply run_register_not_object | by apply run_login_not_object].
Qed.

Lemma malformed_body_500_witness :
  (run (register array_request) jane_world =
     (inr (jsonify {[ "error" := VStr "'list' object has no attribute 'get'" ]}, 500),
      jane_world) /\
   run (login array_request) jane_world =
     (inr (jsonify {[ "error" := VStr "'list' object has no attribute 'get'" ]}, 500),
      jane_world)) /\
  (run (register bodiless_request) jane_world =
     (inr (jsonify {[ "error" := VStr (raw_text bodiless_request) ]}, 500), jane_world) /\
   run (login bodiless_request) jane_world =
     (inr (jsonify {[ "error" := VStr (raw_text bodiless_request) ]}, 500), jane_world)).
Proof.
  split.
  - apply (malformed_body_500 jane_world array_request). exact I.
  - apply (malformed_body_500 jane_world bodiless_request). exact I.
Defined.

(** * Registrations in flight at once *)

(** Running a handler on its own is making its calls one after the other. *)
Lemma run_step {A : Type} (p : prog A) (w : world) :
  run p w = run (Pool.step p w).1 (Pool.step p w).2.
Proof.
  destruct p as [a | err | k | q k | d k]; simpl; try reflexivity.
  by destruct (store_insert_one d w).
Qed.

(** However the calls are interleaved, the unique indexes hold. *)
Lemma store_ok_step {A : Type} (p : prog A) (w : world) :
  store_ok w -> store_ok (Pool.step p w).2.
Proof.
  intros Hok. destruct p as [a | err | k | q k | d k]; simpl; try done.
  - by apply (store_ok_called (CallFindOne q)).
  - pose proof (store_ok_insert d w Hok) as Hins.
    by destruct (store_insert_one d w).
Qed.

Lemma store_ok_schedule (schedule : list nat) (ps : Pool.t) (w : world) :
  store_ok w -> store_ok (Pool.run_schedule schedule ps w).2.
Proof.
  revert ps w. induction schedule as [| i rest IH]; intros ps w Hok; simpl; [done |].
  destruct (Pool.step_at i ps w) as [ps' w'] eqn:Hstep.
  apply IH. unfold Pool.step_at in Hstep.
  destruct (ps !! i) as [p |]; [| by injection Hstep as <- <-].
  pose proof (store_ok_step p w Hok) as Hp.
  destruct (Pool.step p w) as [p' w'']. by injection Hstep as <- <-.
Qed.

(** C8, on the code.  Two registrations for the same username, both valid,
    each looking the username up before the other has inserted: the first
    insert goes through (201); the second is refused by the unique index, and
    the handler answers it with 500 and the text of the driver's error, not
    with the 400 of a conflict.  One account is stored. *)
Theorem concurrent_register_race :
  let '(ps, w) := Pool.run_schedule race_schedule race_pool empty_world in
  map Pool.answer ps =
    [ Some (jsonify {[ "message" := VStr "User registered successfully";
                       "userId" := VStr (str_oid 0%N) ]}, 201);
      Some (jsonify {[ "error" := VStr (duplicate_key_text "username_1") ]}, 500) ] /\
  length (users_collection w) = 1%nat /\
  calls w =
    [ CallFindOne (duplicate_filter jane_register);
      CallFindOne (duplicate_filter jane_again);
      CallInsertOne (account_of jane_register (clock empty_world));
      CallInsertOne (account_of jane_again (clock empty_world)) ].
Proof. vm_compute. repeat split; reflexivity. Qed.

(** The same two registrations one after the other: the second is refused
    with the 400 of a conflict. *)
Example sequential_register_conflict :
  (run (register (Json (VDict jane_again)))
       (run (register (Json (VDict jane_register))) empty_world).2).1 =
  inr (jsonify {[ "error" := VStr "Username or email already exists" ]}, 400).
Proof. vm_compute. reflexivity. Qed.


(** * Further properties of the handlers *)

(** The backend is the same before and after any program. *)
Lemma run_backend {A : Type} (p : prog A) (w : world) :
  backend (run p w).2 = backend w.
Proof.
  revert w. induction p as [a | err | k IH | q k IH | d k IH]; intros w; simpl;
    try done.
  - by rewrite IH.
  - destruct (insert_one_cases d w) as [[err ->] | (-> & _)]; by rewrite IH.
Qed.

(** X1.  Whatever the request, [register] returns a response (no exception
    leaves the handler) whose status is 201, 400 or 500.  With 201 the
    collection has gained exactly one document, at its end, under the
    identifier that was next; with 400 or 500 the collection and the
    identifier counter are as before.  Documents already stored are never
    changed or removed. *)
Theorem register_outcomes (request : request) (w : world) :
  exists (body : value) (status : Z) (w' : world),
    run (register request) w = (inr (body, status), w') /\
    ((status = 201 /\
      exists account, users_collection w' =
                        users_collection w ++ [mkDoc (next_oid w) account] /\
                      next_oid w' = (next_oid w + 1)%N) \/
     ((status = 400 \/ status = 500) /\
      users_collection w' = users_collection w /\ next_oid w' = next_oid w)).
Proof.
  destruct request as [err | v].
  { rewrite run_register_no_json. do 3 eexists. split; [reflexivity |]. right. auto. }
  destruct v as [| b | z | s | l | d];
    try (rewrite run_register_not_object by exact I;
         do 3 eexists; split; [reflexivity |]; right; auto).
  rewrite run_register_dict. cbv zeta.
  destruct (negb _).
  { do 3 eexists. split; [reflexivity |]. right. auto. }
  rewrite (surjective_pairing (store_find_one _ w)), find_one_world.
  destruct (store_find_one _ w).1 as [err | [found |]].
  { do 3 eexists. split; [reflexivity |]. right. auto. }
  { do 3 eexists. split; [reflexivity |]. right. auto. }
  match goal with |- context [store_insert_one ?nu ?w0] =>
    destruct (insert_one_cases nu w0) as [[err ->] | (-> & _)] end.
  { do 3 eexists. split; [reflexivity |]. right. auto. }
  do 3 eexists. split; [reflexivity |]. left. split; [reflexivity |].
  eexists. split; reflexivity.
Qed.

(** X2.  Whatever the request, [login] returns a response whose status is
    200, 400, 401 or 500, writes nothing (the collection and the identifier
    counter are as before), and calls the collection at most once, with a
    [find_one]. *)
Theorem login_outcomes (request : request) (w : world) :
  exists (body : value) (status : Z) (w' : world),
    run (login request) w = (inr (body, status), w') /\
    (status = 200 \/ status = 400 \/ status = 401 \/ status = 500) /\
    users_collection w' = users_collection w /\
    next_oid w' = next_oid w /\
    (calls w' = calls w \/ exists q, calls w' = calls w ++ [CallFindOne q]).
Proof.
  destruct request as [err | v].
  { rewrite run_login_no_json. do 3 eexists. split; [reflexivity |]. auto 10. }
  destruct v as [| b | z | s | l | d];
    try (rewrite run_login_not_object by exact I;
         do 3 eexists; split; [reflexivity |]; auto 10).
  rewrite run_login_dict. cbv zeta.
  destruct (_ || _).
  { do 3 eexists. split; [reflexivity |]. auto 10. }
  rewrite (surjective_pairing (store_find_one _ w)), find_one_world.
  destruct (store_find_one _ w).1 as [err | [user |]].
  - do 3 eexists. split; [reflexivity |]. repeat split; eauto 10.
  - destruct (negb _); do 3 eexists; (split; [reflexivity |]);
      repeat split; eauto 10.
  - do 3 eexists. split; [reflexivity |]. repeat split; eauto 10.
Qed.

(** The validation answers, and the condition of the code they come from. *)
Lemma register_invalid_iff (d : gmap string value) (w : world) :
  (run (register (Json (VDict d))) w).1 =
    inr (error_body "Username, email, and password are required", 400)
  <->
  py_all [default VNone (d !! "username"); default VNone (d !! "email");
          default VNone (d !! "password")] = false.
Proof.
  rewrite run_register_dict. cbv zeta.
  destruct (py_all _); cbn [negb fst]; [| done].
  split; [| discriminate].
  destruct (store_find_one _ w) as [[err | [found |]] w1]; cbn [fst];
    [discriminate | discriminate |].
  destruct (store_insert_one _ _) as [[err | oid] w']; cbn [fst]; discriminate.
Qed.

Lemma login_invalid_iff (d : gmap string value) (w : world) :
  (run (login (Json (VDict d))) w).1 =
    inr (error_body "Username and password are required", 400)
  <->
  negb (truthy (default VNone (d !! "username"))) ||
  negb (truthy (default VNone (d !! "password"))) = true.
Proof.
  rewrite run_login_dict. cbv zeta.
  destruct (_ || _); cbn [fst]; [done |].
  split; [| discriminate].
  destruct (store_find_one _ w) as [[err | [user |]] w1]; cbn [fst];
    [discriminate | | discriminate].
  destruct (negb _); cbn [fst]; discriminate.
Qed.

(** X6.  The validation of [register] looks at truth values, not at types:
    for a body that is a JSON object, the answer is the 400
    "Username, email, and password are required" exactly when the username,
    the email or the password is absent or false in Python's sense ([null],
    [false], [0], the empty string, list or object); any other value, a
    number for instance, passes it. *)
Theorem register_validation_iff (d : gmap string value) (w : world) :
  (run (register (Json (VDict d))) w).1 =
    inr (jsonify {[ "error" := VStr "Username, email, and password are required" ]}, 400)
  <->
  (truthy (default VNone (d !! "username")) = false \/
   truthy (default VNone (d !! "email")) = false \/
   truthy (default VNone (d !! "password")) = false).
Proof.
  change (jsonify {[ "error" := VStr "Username, email, and password are required" ]})
    with (error_body "Username, email, and password are required").
  rewrite register_invalid_iff. cbn [py_all forallb].
  destruct (truthy (default VNone (d !! "username")));
    destruct (truthy (default VNone (d !! "email")));
    destruct (truthy (default VNone (d !! "password")));
    cbn [andb]; intuition discriminate.
Qed.

(** X7.  Likewise for [login]: for a body that is a JSON object the answer is
    the 400 "Username and password are required" exactly when the username or
    the password is absent or false in Python's sense. *)
Theorem login_validation_iff (d : gmap string value) (w : world) :
  (run (login (Json (VDict d))) w).1 =
    inr (jsonify {[ "error" := VStr "Username and password are required" ]}, 400)
  <->
  (truthy (default VNone (d !! "username")) = false \/
   truthy (default VNone (d !! "password")) = false).
Proof.
  change (jsonify {[ "error" := VStr "Username and password are required" ]})
    with (error_body "Username and password are required").
  rewrite login_invalid_iff.
  destruct (truthy (default VNone (d !! "username")));
    destruct (truthy (default VNone (d !! "password")));
    cbn [orb negb]; intuition discriminate.
Qed.

(** A number passes the validation of [register]. *)
Example numeric_username_passes :
  (run (register (Json (VDict numeric_register))) empty_world).1 =
  inr (registered_body 0%N, 201).
Proof. vm_compute. reflexivity. Qed.

(** X8.  The identifier a registration returns is the one a login returns:
    in a collection of typed accounts, after a registration with non-empty
    username, email and password, none of them taken, and a [fullName] and a
    [userType] the collection stores as they are, the [userId] of its answer
    is the [_id] of the user object a login with the same username and
    password gets. *)
Theorem userId_round_trip (w : world) (d l : gmap string value) (u e p : string) :
  accounts_typed w ->
  has_string d "username" u -> has_string d "email" e -> has_string d "password" p ->
  storable (default VNone (d !! "fullName")) ->
  storable (default (VStr "job_seeker") (d !! "userType")) ->
  fresh w u e ->
  l !! "username" = Some (VStr u) -> l !! "password" = Some (VStr p) ->
  exists (userId : value) (w1 : world) (user : gmap string value),
    run (register (Json (VDict d))) w =
      (inr (jsonify {[ "message" := VStr "User registered successfully";
                       "userId" := userId ]}, 201), w1) /\
    (run (login (Json (VDict l))) w1).1 =
      inr (jsonify {[ "message" := VStr "Login successful"; "user" := VDict user ]}, 200) /\
    user !! "_id" = Some userId.
Proof.
  intros Htyped Hu He Hp Hfull Htype Hfresh Hlu Hlp.
  exists (VStr (str_oid (next_oid w))), (after_register d w),
         (public_fields (mkDoc (next_oid w) (account_of d (clock w)))).
  split; [by apply (run_register_fresh w d u e p) |].
  split; [| reflexivity].
  apply (login_after_register w d l u e p); try done; by destruct Hp.
Qed.

Lemma userId_round_trip_witness :
  exists (userId : value) (w1 : world) (user : gmap string value),
    run (register (Json (VDict jane_register))) empty_world =
      (inr (jsonify {[ "message" := VStr "User registered successfully";
                       "userId" := userId ]}, 201), w1) /\
    (run (login (Json (VDict jane_login))) w1).1 =
      inr (jsonify {[ "message" := VStr "Login successful"; "user" := VDict user ]}, 200) /\
    user !! "_id" = Some userId.
Proof.
  apply (userId_round_trip empty_world jane_register jane_login
           "jane" "jane@example.org" "s3cret").
  - apply typed_empty.
  - split; [reflexivity | discriminate].
  - split; [reflexivity | discriminate].
  - split; [reflexivity | discriminate].
  - apply storable_str.
  - apply storable_str.
  - apply fresh_empty.
  - reflexivity.
  - reflexivity.
Defined.

Lemma find_app_some {A : Type} (f : A -> bool) (l1 l2 : list A) (x : A) :
  List.find f l1 = Some x -> List.find f (l1 ++ l2) = Some x.
Proof.
  induction l1 as [| a l1 IH]; simpl; [discriminate |].
  destruct (f a); [done | exact IH].
Qed.

(** [register] leaves the collection as it was or adds one document at its
    end. *)
Lemma register_collection (request : request) (w : world) :
  users_collection (run (register request) w).2 = users_collection w \/
  exists doc,
    users_collection (run (register request) w).2 = users_collection w ++ [doc].
Proof.
  destruct request as [err | v]; [by left |].
  destruct v; try by left.
  rewrite run_register_dict. cbv zeta.
  destruct (negb _); [by left |].
  rewrite (surjective_pairing (store_find_one _ w)), find_one_world.
  destruct (store_find_one _ w).1 as [err | [found |]]; [by left | by left |].
  match goal with |- context [store_insert_one ?nu ?w0] =>
    destruct (insert_one_cases nu w0) as [[err ->] | (-> & _)] end.
  - by left.
  - right. by eexists.
Qed.


(** X9.  A registration never locks anybody out: whatever is registered in
    between, and whether it goes through or not, a login with a username and
    a password that are non-empty strings and that answered 200 before answers
    the same 200 after. *)
Theorem login_survives_register (l : gmap string value) (u p : string)
    (other : request) (w : world) (body : value) :
  store_ok w ->
  has_string l "username" u -> has_string l "password" p ->
  (run (login (Json (VDict l))) w).1 = inr (body, 200) ->
  (run (login (Json (VDict l))) (run (register other) w).2).1 = inr (body, 200).
Proof.
  intros _ Hu Hp Hbefore.
  rewrite (run_login_strings _ l u p) in Hbefore by done.
  rewrite (run_login_strings _ l u p) by done. cbn [fst] in *.
  rewrite run_backend.
  destruct (register_collection other w) as [-> | [doc ->]]; [done |].
  destruct (List.find _ (users_collection w)) as [user |] eqn:Hfind;
    [| discriminate Hbefore].
  by rewrite (find_app_some _ _ _ _ Hfind).
Qed.

Lemma login_survives_register_witness :
  (run (login (Json (VDict jane_login)))
       (run (register (Json (VDict numeric_register))) jane_world).2).1 =
  inr (logged_in_body
         (public_fields (mkDoc 0%N (account_of jane_register (clock empty_world)))), 200).
Proof.
  apply (login_survives_register jane_login "jane" "s3cret"
           (Json (VDict numeric_register)) jane_world).
  - apply jane_world_ok.
  - split; [reflexivity | discriminate].
  - split; [reflexivity | discriminate].
  - vm_compute. reflexivity.
Defined.

(** * Further properties of handlers in flight at once *)

Lemma guarded_register (request : request) : guarded (register request).
Proof. unfold guarded, register. eexists _, (fun err => _). reflexivity. Qed.

Lemma guarded_login (request : request) : guarded (login request).
Proof. unfold guarded, login. eexists _, (fun err => _). reflexivity. Qed.

Lemma guarded_step (p : prog response) (w : world) :
  guarded p -> guarded (Pool.step p w).1.
Proof.
  intros (body & recover & ->).
  destruct body as [a | err | k | q k | d k]; simpl.
  - by exists (Ret a), recover.
  - by exists (Ret (recover err)), recover.
  - by exists (k (clock w)), recover.
  - by eexists _, recover.
  - destruct (store_insert_one d w) as [r w']. by eexists _, recover.
Qed.

Lemma guarded_not_raise (p : prog response) (err : exn) :
  guarded p -> p <> Raise err.
Proof.
  intros (body & recover & ->).
  destruct body; simpl; discriminate.
Qed.

Lemma guarded_schedule (schedule : list nat) (ps : Pool.t) (w : world) :
  Forall guarded ps -> Forall guarded (Pool.run_schedule schedule ps w).1.
Proof.
  revert ps w. induction schedule as [| i rest IH]; intros ps w Hps; simpl; [done |].
  destruct (Pool.step_at i ps w) as [ps' w'] eqn:Hstep.
  apply IH. unfold Pool.step_at in Hstep.
  destruct (ps !! i) as [p |] eqn:Hp; [| by injection Hstep as <- <-].
  pose proof (guarded_step p w (proj1 (Forall_lookup _ _) Hps i p Hp)) as Hp'.
  destruct (Pool.step p w) as [p' w'']. injection Hstep as <- <-.
  by apply Forall_insert.
Qed.

(** X4.  No exception leaves a handler, in flight with others or not: at
    every point of every interleaving, what is left of each registration and
    of each login is either a response or a program still to run, never a
    raised exception.  The handler for status 500 that the application
    registers (lines 207-209) is thus never reached from these two routes. *)
Theorem handlers_never_raise (registrations logins : list request)
    (schedule : list nat) (w : world) (i : nat) (p : prog response) :
  (Pool.run_schedule schedule (handlers registrations logins) w).1 !! i = Some p ->
  (forall err, p <> Raise err) /\
  exists response, (run p (Pool.run_schedule schedule (handlers registrations logins) w).2).1
                   = inr response.
Proof.
  intros Hp.
  assert (Hall : Forall guarded (handlers registrations logins)).
  { unfold handlers. apply Forall_app. split; apply Forall_forall; intros q Hq.
    - apply list_elem_of_fmap in Hq as (r & -> & _). apply guarded_register.
    - apply list_elem_of_fmap in Hq as (r & -> & _). apply guarded_login. }
  pose proof (guarded_schedule schedule _ w Hall) as Hafter.
  pose proof (proj1 (Forall_lookup _ _) Hafter i p Hp) as Hguarded.
  split; [intros err; by apply guarded_not_raise |].
  destruct Hguarded as (body & recover & ->).
  generalize (Pool.run_schedule schedule (handlers registrations logins) w).2.
  clear. induction body as [a | err | k IH | q k IH | d k IH]; intros w; simpl.
  - by eexists.
  - by eexists.
  - apply IH.
  - apply IH.
  - destruct (store_insert_one d w) as [r w']. apply IH.
Qed.

Lemma handlers_never_raise_witness :
  (forall err, Ret (registered_body 0%N, 201) <> Raise err) /\
  exists response,
    (run (Ret (registered_body 0%N, 201))
         (Pool.run_schedule race_schedule
            (handlers [Json (VDict jane_register); Json (VDict jane_again)] [])
            empty_world).2).1 = inr response.
Proof.
  apply (handlers_never_raise [Json (VDict jane_register); Json (VDict jane_again)] []
           race_schedule empty_world 0%nat).
  vm_compute. reflexivity.
Defined.

(** With the unique index on [username], at most one stored account has a
    given username. *)
Lemma unique_index_tail (srv : server) (select : User.t -> value) (a : document)
    (docs : list document) :
  unique_index srv select (a :: docs) -> unique_index srv select docs.
Proof.
  intros H i j di dj Hi Hj Hlt. apply (H (S i) (S j)); [done | done | lia].
Qed.

Lemma filter_none {A : Type} (f : A -> bool) (l : list A) :
  (forall x, x ∈ l -> f x = false) -> List.filter f l = [].
Proof.
  induction l as [| a l IH]; intros H; simpl; [done |].
  rewrite (H a) by left. apply IH. intros x Hx. apply H. by right.
Qed.

Lemma named_at_most_one (srv : server) (u : string) (docs : list document) :
  unique_index srv User.username docs -> (length (named u docs) <= 1)%nat.
Proof.
  induction docs as [| a docs IH]; intros Huniq; simpl; [lia |].
  pose proof (IH (unique_index_tail _ _ _ _ Huniq)) as Htail.
  destruct (bson_eq (User.username (fields a)) (VStr u)) eqn:Ha; [| exact Htail].
  apply bson_eq_str in Ha.
  assert (Hnone : named u docs = []).
  { unfold named. apply filter_none. intros x Hx.
    apply list_elem_of_lookup in Hx as [j Hj].
    apply not_true_is_false. intros Hm. apply bson_eq_str in Hm.
    pose proof (Huniq 0%nat (S j) a x eq_refl Hj ltac:(lia)) as Hne.
    rewrite Ha, Hm, field_clash_str_iff in Hne.
    assert (holds (VStr u) (VStr u) = true) by by apply holds_str_typed.
    congruence. }
  fold (named u docs). rewrite Hnone. simpl. lia.
Qed.

Lemma successes_insert (ps : Pool.t) (i : nat) (p p' : prog response) :
  ps !! i = Some p ->
  (successes (<[i:=p']> ps) + Nat.b2n (is_created p) =
   successes ps + Nat.b2n (is_created p'))%nat.
Proof.
  unfold successes. revert i. induction ps as [| a ps IH]; intros i Hi; [done |].
  destruct i as [| i].
  - injection Hi as ->.
    change (<[0%nat:=p']> (p :: ps)) with (p' :: ps). cbn [List.filter].
    destruct (is_created p), (is_created p'); cbn [length Nat.b2n]; lia.
  - change (<[S i:=p']> (a :: ps)) with (a :: <[i:=p']> ps). cbn [List.filter].
    specialize (IH i Hi).
    destruct (is_created a); cbn [length]; [exact (f_equal S IH) | exact IH].
Qed.

(** One call of a registration in flight: it stays a registration in flight,
    and it comes to answer 201 exactly when an account with its username is
    added. *)
Lemma in_flight_step (d : gmap string value) (u : string) (p : prog response) (w : world) :
  d !! "username" = Some (VStr u) ->
  in_flight d p ->
  in_flight d (Pool.step p w).1 /\
  (length (named u (users_collection (Pool.step p w).2)) + Nat.b2n (is_created p) =
   length (named u (users_collection w)) + Nat.b2n (is_created (Pool.step p w).1))%nat.
Proof.
  intros Hu Hp. destruct Hp as [| | now | r].
  - unfold register, get_json, py_get. cbn [mbind prog_bind bind try_except].
    destruct (negb (py_all _)).
    + cbn [mret prog_ret try_except Pool.step fst snd]. split; [apply at_done | done].
    + cbn [find_one mbind prog_bind bind try_except Pool.step].
      rewrite (surjective_pairing (store_find_one _ w)), find_one_world.
      destruct (store_find_one _ w).1 as [err | [found |]];
        cbn [fst snd users_collection called is_created Nat.b2n mbind prog_bind
             bind try_except mret prog_ret].
      * split; [apply at_done | done].
      * split; [apply at_done | done].
      * split; [apply at_clock | done].
  - cbn [Pool.step register_tail User_init datetime_now mbind mret prog_ret
         prog_bind bind try_except fst snd is_created Nat.b2n].
    split; [apply (at_insert d (clock w)) | done].
  - unfold register_inserting, insert_one.
    cbn [mbind prog_bind bind try_except Pool.step].
    change (User.to_dict (account_of d now)) with (account_of d now).
    destruct (insert_one_cases (account_of d now) w) as [[err ->] | (-> & _)];
      cbn [fst snd users_collection called stored is_created Nat.b2n mbind prog_bind
           bind try_except mret prog_ret].
    + split; [apply at_done | done].
    + split; [apply at_done |].
      unfold named. rewrite List.filter_app, length_app.
      cbn [List.filter fields account_of User.username].
      rewrite Hu. cbn [default from_option id bson_eq].
      rewrite String.eqb_refl. simpl. lia.
  - cbn [Pool.step fst snd]. split; [apply at_done | done].
Qed.

Lemma in_flight_schedule (bodies : list (gmap string value)) (u : string)
    (schedule : list nat) (ps : Pool.t) (w : world) :
  Forall (fun d => d !! "username" = Some (VStr u)) bodies ->
  Forall2 in_flight bodies ps ->
  (length (named u (users_collection (Pool.run_schedule schedule ps w).2)) + successes ps =
   length (named u (users_collection w)) + successes (Pool.run_schedule schedule ps w).1)%nat.
Proof.
  intros Hbodies. revert ps w.
  induction schedule as [| i rest IH]; intros ps w Hps; simpl; [done |].
  unfold Pool.step_at.
  destruct (ps !! i) as [p |] eqn:Hp; [| by apply IH].
  destruct (Forall2_lookup_r _ _ _ _ _ Hps Hp) as (d & Hd & Hflight).
  pose proof (proj1 (Forall_lookup _ _) Hbodies i d Hd) as Hu. simpl in Hu.
  destruct (in_flight_step d u p w Hu Hflight) as [Hflight' Hcount].
  pose proof (successes_insert ps i p (Pool.step p w).1 Hp) as Hsucc.
  destruct (Pool.step p w) as [p' w']. cbn [fst snd] in *.
  assert (Hps' : Forall2 in_flight bodies (<[i:=p']> ps)).
  { rewrite <- (list_insert_id bodies i d Hd). by apply Forall2_insert. }
  specialize (IH (<[i:=p']> ps) w' Hps'). lia.
Qed.

Lemma register_not_created (d : gmap string value) :
  is_created (register (Json (VDict d))) = false.
Proof.
  unfold register, get_json, py_get. cbn [mbind prog_bind bind try_except].
  by destruct (negb (py_all _)).
Qed.

(** X5.  Of any number of registrations for one username in flight at once,
    at most one is answered 201, however their calls are interleaved, and
    none is when an account already has the username. *)
Theorem at_most_one_created (bodies : list (gmap string value)) (u : string)
    (schedule : list nat) (w : world) :
  store_ok w ->
  Forall (fun d => d !! "username" = Some (VStr u)) bodies ->
  (successes (Pool.run_schedule schedule
                (map (fun d => register (Json (VDict d))) bodies) w).1
   + length (named u (users_collection w)) <= 1)%nat.
Proof.
  intros Hok Hbodies.
  set (ps := map (fun d => register (Json (VDict d))) bodies).
  assert (Hps : Forall2 in_flight bodies ps).
  { subst ps. clear. induction bodies as [| d bodies IH]; simpl; constructor.
    - apply at_check.
    - exact IH. }
  assert (Hzero : successes ps = 0%nat).
  { subst ps. clear. unfold successes.
    induction bodies as [| d bodies IH]; simpl; [done |].
    by rewrite register_not_created. }
  pose proof (in_flight_schedule bodies u schedule ps w Hbodies Hps) as Hcount.
  pose proof (named_at_most_one _ u _
                (ok_username _ (store_ok_schedule schedule ps w Hok))) as Hone.
  lia.
Qed.

Lemma at_most_one_created_witness :
  (successes (Pool.run_schedule race_schedule
                (map (fun d => register (Json (VDict d))) [jane_register; jane_again])
                empty_world).1
   + length (named "jane" (users_collection empty_world)) <= 1)%nat.
Proof.
  apply (at_most_one_created [jane_register; jane_again] "jane" race_schedule empty_world).
  - apply store_ok_empty.
  - repeat constructor.
Defined.

(** * The helpers *)

Lemma validate_required_fields_dict (d : gmap string value) (required_fields : list string) :
  validate_required_fields (VDict d) required_fields =
  Ret (List.filter (fun f => negb (truthy (default VNone (d !! f)))) required_fields).
Proof.
  induction required_fields as [| f rest IH]; [reflexivity |].
  cbn [validate_required_fields py_get mbind prog_bind bind]. rewrite IH.
  cbn [bind mret prog_ret List.filter].
  by destruct (negb _).
Qed.

Lemma filter_sublist {A : Type} (f : A -> bool) (l : list A) :
  sublist (List.filter f l) l.
Proof.
  induction l as [| a l IH]; simpl; [constructor |].
  destruct (f a); by constructor.
Qed.

(** X10.  On a dictionary, [validate_required_fields] returns, without
    raising, the list [required_fields] with the names whose value is truthy
    taken out: exactly the required names whose value is absent or false in
    Python's sense, in the order and with the repetitions of
    [required_fields]; a field that is present with [0], [false] or an empty
    string, list or object counts as missing. *)
Theorem validate_required_fields_missing (d : gmap string value)
    (required_fields : list string) :
  validate_required_fields (VDict d) required_fields =
    Ret (List.filter (fun f => negb (truthy (default VNone (d !! f)))) required_fields) /\
  (forall f,
     f ∈ List.filter (fun f => negb (truthy (default VNone (d !! f)))) required_fields <->
     f ∈ required_fields /\ truthy (default VNone (d !! f)) = false) /\
  (validate_required_fields (VDict d) required_fields = Ret [] <->
   forall f, f ∈ required_fields -> truthy (default VNone (d !! f)) = true).
Proof.
  assert (Hmem : forall f,
    f ∈ List.filter (fun f => negb (truthy (default VNone (d !! f)))) required_fields <->
    f ∈ required_fields /\ truthy (default VNone (d !! f)) = false).
  { intros f. rewrite !list_elem_of_In, List.filter_In, negb_true_iff. reflexivity. }
  split; [apply validate_required_fields_dict |].
  split; [exact Hmem |].
  rewrite validate_required_fields_dict. split.
  - intros [= Hnil] f Hf. destruct (truthy (default VNone (d !! f))) eqn:Ht; [done |].
    assert (Hin : f ∈ List.filter (fun f => negb (truthy (default VNone (d !! f))))
                        required_fields) by (apply Hmem; auto).
    rewrite Hnil in Hin. inversion Hin.
  - intros Hall. f_equal. apply filter_none. intros f Hf. by rewrite (Hall f Hf).
Qed.

(** The helper on a list with a repeated name. *)
Example validate_repeated_name :
  validate_required_fields (VDict no_password_login) ["password"; "username"; "password"]
  = Ret ["password"; "password"].
Proof. vm_compute. reflexivity. Qed.

(** X11.  The helper computes the check the handlers make inline: on a body
    that is a JSON object, [register] answers its validation 400 exactly when
    [validate_required_fields] finds one of [username], [email], [password]
    missing, and [login] answers its own exactly when the helper finds
    [username] or [password] missing. *)
Theorem validate_required_fields_agrees (d : gmap string value) (w : world) :
  ((run (register (Json (VDict d))) w).1 =
     inr (jsonify {[ "error" := VStr "Username, email, and password are required" ]}, 400)
   <-> validate_required_fields (VDict d) ["username"; "email"; "password"] <> Ret []) /\
  ((run (login (Json (VDict d))) w).1 =
     inr (jsonify {[ "error" := VStr "Username and password are required" ]}, 400)
   <-> validate_required_fields (VDict d) ["username"; "password"] <> Ret []).
Proof.
  change (jsonify {[ "error" := VStr "Username, email, and password are required" ]})
    with (error_body "Username, email, and password are required").
  change (jsonify {[ "error" := VStr "Username and password are required" ]})
    with (error_body "Username and password are required").
  rewrite register_invalid_iff, login_invalid_iff, !validate_required_fields_dict.
  cbn [py_all forallb List.filter].
  destruct (truthy (default VNone (d !! "username")));
    destruct (truthy (default VNone (d !! "email")));
    destruct (truthy (default VNone (d !! "password")));
    cbn [andb orb negb]; split; split; try discriminate; try congruence; done.
Qed.

(** X12.  On a value that has no [get] (a decoded body that is not a JSON
    object), [validate_required_fields] raises the [AttributeError] of the
    first lookup as soon as one field is required, and returns the empty list
    when none is. *)
Theorem validate_required_fields_not_object (data : value) (required_fields : list string) :
  not_an_object data ->
  validate_required_fields data required_fields =
    match required_fields with
    | [] => Ret []
    | _ :: _ => Raise (AttributeError (no_get_text data))
    end.
Proof.
  intros Hdata. destruct required_fields as [| f rest]; [reflexivity |].
  destruct data; try contradiction; reflexivity.
Qed.

Lemma validate_required_fields_not_object_witness :
  validate_required_fields (VList []) ["username"; "password"] =
    Raise (AttributeError "'list' object has no attribute 'get'") /\
  validate_required_fields VNone [] = Ret [].
Proof.
  split.
  - apply (validate_required_fields_not_object (VList []) ["username"; "password"]).
    exact I.
  - apply (validate_required_fields_not_object VNone []). exact I.
Defined.

Section SerializeDocFacts.

Variable V : Type.
Variable py_str : V -> string.
Variable of_str : string -> V.

(** X13.  [serialize_doc] touches nothing but the value under [_id]: it
    returns [None] for [None]; for a dictionary it returns a dictionary with
    the same keys, the same value under every key other than [_id], and under
    [_id], when the key is there, the string [str] gives for the value that
    was there.  The empty dictionary and a document without [_id] come back
    as they were. *)
Theorem serialize_doc_only_id (doc : option (gmap string V)) :
  match doc with
  | None => serialize_doc V py_str of_str doc = None
  | Some d =>
      exists d',
        serialize_doc V py_str of_str doc = Some d' /\
        dom d' = dom d /\
        (forall key, key <> "_id" -> d' !! key = d !! key) /\
        d' !! "_id" = (fun x => of_str (py_str x)) <$> d !! "_id" /\
        (d !! "_id" = None -> d' = d)
  end.
Proof using Type.
  destruct doc as [d |]; [| reflexivity].
  unfold serialize_doc.
  destruct (negb (bool_decide (d = ∅))) eqn:Hempty.
  - destruct (d !! "_id") as [x |] eqn:Hid.
    + eexists. split; [reflexivity |]. repeat split.
      * by apply dom_insert_lookup_L.
      * intros key Hkey. by rewrite lookup_insert_ne.
      * by rewrite lookup_insert_eq.
      * discriminate.
    + exists d. rewrite Hid. repeat split; done.
  - apply negb_false_iff, bool_decide_eq_true in Hempty. subst d.
    exists ∅. rewrite lookup_empty. repeat split; done.
Qed.

(** X14.  Once [_id] is a string, [serialize_doc] changes nothing more: as
    [str] of a string is that string, serialising twice is serialising
    once. *)
Theorem serialize_doc_idempotent (doc : option (gmap string V)) :
  (forall s, py_str (of_str s) = s) ->
  serialize_doc V py_str of_str (serialize_doc V py_str of_str doc) =
  serialize_doc V py_str of_str doc.
Proof using Type.
  intros Hstr. destruct doc as [d |]; [| reflexivity].
  unfold serialize_doc at 2.
  destruct (negb (bool_decide (d = ∅))) eqn:Hempty.
  - destruct (d !! "_id") as [x |] eqn:Hid.
    + unfold serialize_doc.
      assert (Hne : <["_id":=of_str (py_str x)]> d <> ∅) by apply insert_non_empty.
      rewrite bool_decide_eq_false_2 by done. cbn [negb].
      rewrite lookup_insert_eq, Hstr, insert_insert_eq. by rewrite Hempty, Hid.
    + unfold serialize_doc. by rewrite Hempty, Hid.
  - unfold serialize_doc. by rewrite Hempty.
Qed.

End SerializeDocFacts.

Lemma serialize_doc_idempotent_witness :
  serialize_doc _ id_str inl (serialize_doc _ id_str inl (Some stored_jane)) =
  serialize_doc _ id_str inl (Some stored_jane).
Proof.
  apply (serialize_doc_idempotent (string + ObjectId) id_str inl (Some stored_jane)).
  reflexivity.
Defined.

(** The identifier of the sample document, serialised. *)
Example serialize_stored_jane :
  serialize_doc _ id_str inl (Some stored_jane) =
  Some {[ "_id" := inl "00000000000000000000000a"; "username" := inl "jane" ]}.
Proof. vm_compute. reflexivity. Qed.

(** * The static route *)

Lemma substring_all (s : string) : substring 0 (String.length s) s = s.
Proof. induction s as [| c s IH]; simpl; [reflexivity | by rewrite IH]. Qed.

Lemma substring_suffix (prefix suffix : string) :
  substring (String.length prefix) (String.length suffix) (prefix +:+ suffix) = suffix.
Proof.
  induction prefix as [| c prefix IH]; simpl; [apply substring_all | exact IH].
Qed.

Lemma string_length_app (s t : string) :
  String.length (s +:+ t) = (String.length s + String.length t)%nat.
Proof. induction s as [| c s IH]; simpl; [reflexivity | by rewrite IH]. Qed.

Lemma substring_split (s : string) (k : nat) :
  (k <= String.length s)%nat ->
  s = substring 0 k s +:+ substring k (String.length s - k) s.
Proof.
  revert k. induction s as [| c s IH]; intros k Hk; simpl in *.
  - destruct k; [reflexivity | lia].
  - destruct k as [| k]; simpl.
    + by rewrite substring_all.
    + change (String c s =
              String c (substring 0 k s +:+ substring k (String.length s - k) s)).
      f_equal. apply IH. lia.
Qed.

Lemma endswith_iff (s suffix : string) :
  endswith s suffix = true <-> exists prefix, s = prefix +:+ suffix.
Proof.
  unfold endswith. rewrite andb_true_iff, Nat.leb_le, String.eqb_eq. split.
  - intros [Hlen Hsub].
    exists (substring 0 (String.length s - String.length suffix) s).
    pose proof (substring_split s (String.length s - String.length suffix)
                  ltac:(lia)) as Hsplit.
    replace (String.length s - (String.length s - String.length suffix))%nat
      with (String.length suffix) in Hsplit by lia.
    by rewrite Hsub in Hsplit.
  - intros [prefix ->]. rewrite string_length_app. split; [lia |].
    replace (String.length prefix + String.length suffix - String.length suffix)%nat
      with (String.length prefix) by lia.
    apply substring_suffix.
Qed.

(** X15.  [serve_static] hands a name over to [send_from_directory] exactly
    when the name ends in [.html], and then with the directory [.] and the
    name as it came; any other name, one of fewer than five characters for
    instance, gets the text [Not Found] with status 404 and no file is
    looked for. *)
Theorem serve_static_html_only (filename : string) :
  ((exists stem, filename = stem +:+ ".html") ->
   serve_static filename = SendFromDirectory "." filename) /\
  (~ (exists stem, filename = stem +:+ ".html") ->
   serve_static filename = Text "Not Found" 404) /\
  ((String.length filename < 5)%nat -> serve_static filename = Text "Not Found" 404) /\
  (forall directory name,
     serve_static filename = SendFromDirectory directory name ->
     directory = "." /\ name = filename /\ exists stem, filename = stem +:+ ".html").
Proof.
  unfold serve_static.
  destruct (endswith filename ".html") eqn:Hends.
  - apply endswith_iff in Hends as Hstem.
    split; [done |]. split; [intros Hnot; by destruct Hnot |]. split.
    + intros Hshort. destruct Hstem as [stem ->].
      rewrite string_length_app in Hshort. simpl in Hshort. lia.
    + intros directory name Hsent. by injection Hsent as <- <-.
  - assert (Hnot : ~ (exists stem, filename = stem +:+ ".html")).
    { intros Hstem. apply endswith_iff in Hstem. congruence. }
    split; [intros Hstem; by destruct Hnot |]. split; [done |]. split; [done |].
    intros directory name Hsent. discriminate Hsent.
Qed.

Lemma serve_static_html_only_witness :
  serve_static "login.html" = SendFromDirectory "." "login.html" /\
  serve_static "app.py" = Text "Not Found" 404.
Proof.
  split.
  - apply (proj1 (serve_static_html_only "login.html")). by exists "login".
  - apply (proj1 (proj2 (serve_static_html_only "app.py"))).
    intros Hstem. apply endswith_iff in Hstem. discriminate Hstem.
Defined.
